(** * yaicli: the streaming response decoder and the chat-session store

    A shallow embedding of the streaming path of [yaicli.py]
    ([CLI.get_reasoning_content], [CLI._parse_stream_line],
    [CLI._process_reasoning_content], [CLI._process_regular_content] and
    [CLI._print_stream]) together with the Python operations these methods
    rely on, and a model of the chat-session store described by the
    specification. Further modules embed the conversation history
    ([CLI._check_history_len], [CLI._build_messages],
    [CLI._handle_llm_response]), the configuration and the start-up
    ([CLI.load_config], [CLI.run], [main], the address used by [CLI.post])
    and the generated command ([CLI._filter_command],
    [CLI._confirm_and_execute]).

    Conventions.
    - A Python [str] is a Rocq [string] holding its UTF-8 encoding; every
      string operation the program uses ([startswith], slicing off an ASCII
      prefix, [==], [replace] of a line feed, [in]) acts the same on the
      encoding as on the code points. [strip] recognises the white space
      characters by their encodings.
    - What the program reads from outside (the lines of a response, the
      parsed configuration file, the environment, the answers of the user)
      is an argument of the function that reads it.
    - Objects produced by [json.loads] are the inductive [value]; a [dict] is
      a [gmap string value].
    - A Python exception is an [exn] carried by [outcome]; console and live
      display calls are recorded as a list of [event]s. *)

From Stdlib Require Import ZArith Ascii String List Lia.
From Stdlib Require Import Strings.Byte DecimalString.
From stdpp Require Import base option gmap strings list sorting.

Set Warnings "-register-all".

#[local] Open Scope Z_scope.
#[local] Open Scope string_scope.
#[local] Open Scope list_scope.

(** ** Text helpers *)

Module Text.

Definition LF : string := String "010"%char "".
Definition DQ : ascii := "034"%char.

(** [q s] is [s] with every apostrophe turned into a double quote; it lets
    JSON text be written as a plain literal. *)
Fixpoint q (s : string) : string :=
  match s with
  | "" => ""
  | String c r => String (if Ascii.eqb c "'" then DQ else c) (q r)
  end.

(** [s[n:]] for a byte offset [n]. *)
Fixpoint drop (n : nat) (s : string) : string :=
  match n, s with
  | O, _ => s
  | S _, "" => ""
  | S m, String _ r => drop m r
  end.

(** [s.replace(old, new)] for a one-character [old]. *)
Fixpoint replace (old : ascii) (new : string) (s : string) : string :=
  match s with
  | "" => ""
  | String c r =>
      if Ascii.eqb c old then new +:+ replace old new r
      else String c (replace old new r)
  end.

(** [s.startswith(p)] *)
Fixpoint startswith (p s : string) : bool :=
  match p, s with
  | "", _ => true
  | String _ _, "" => false
  | String a p, String b s => Ascii.eqb b a && startswith p s
  end.

(** [needle in hay] for two strings. *)
Fixpoint contains (needle hay : string) : bool :=
  startswith needle hay ||
  match hay with
  | "" => false
  | String _ r => contains needle r
  end.

(** Every character of [s] satisfies [p]. *)
Fixpoint all (p : ascii -> bool) (s : string) : bool :=
  match s with
  | "" => true
  | String c r => p c && all p r
  end.

Definition of_bytes (b : list byte) : string := string_of_list_byte b.
Definition to_bytes (s : string) : list byte := list_byte_of_string s.

End Text.

(** ** Python objects and the dynamic operations the program applies to them *)

Module Py.

Inductive exn :=
| UnicodeDecodeError
| AttributeError
| KeyError
| IndexError
| TypeError
| MarkupError.

Inductive outcome (A : Type) :=
| Return (a : A)
| Raise (e : exn).
Arguments Return {A} a.
Arguments Raise {A} e.

#[export] Instance outcome_ret : MRet outcome := fun A a => Return a.

#[export] Instance outcome_bind : MBind outcome := fun A B k m =>
  match m with
  | Return a => k a
  | Raise e => Raise e
  end.

(** A [float] read from decimal text: [FDec m e] is the double nearest to
    [m * 10^e]. *)
Inductive pyfloat :=
| FDec (m e : Z)
| FNaN
| FInf (negative : bool).

Inductive value :=
| VNone
| VBool (b : bool)
| VInt (z : Z)
| VFloat (f : pyfloat)
| VStr (s : string)
| VList (l : list value)
| VDict (d : gmap string value).

(** [float(text) == 0.0]: the decimal is zero, or it is at most half the
    least positive double [2^-1074] and rounds to zero (ties to even). *)
Definition float_is_zero (f : pyfloat) : bool :=
  match f with
  | FDec m e =>
      ((m =? 0) || ((e <? 0) && (Z.abs m * 2 ^ 1075 <=? 10 ^ (- e))))%Z
  | FNaN | FInf _ => false
  end.

(** [bool(v)] *)
Definition truthy (v : value) : bool :=
  match v with
  | VNone => false
  | VBool b => b
  | VInt z => negb (z =? 0)%Z
  | VFloat f => negb (float_is_zero f)
  | VStr s => negb (String.eqb s "")
  | VList l => match l with [] => false | _ => true end
  | VDict d => negb (Nat.eqb (size d) 0)
  end.

(** The first code point of a string, as a string: the leading byte and the
    continuation bytes [10xxxxxx] that follow it. *)
Fixpoint continuation (s : string) : string :=
  match s with
  | String c r =>
      let n := N_of_ascii c in
      if ((128 <=? n) && (n <? 192))%N then String c (continuation r) else ""
  | "" => ""
  end.

Definition first_char (s : string) : option string :=
  match s with
  | "" => None
  | String c r => Some (String c (continuation r))
  end.

(** [v.get(k)] and [v.get(k, default)]: only a [dict] has the method. *)
Definition get (v : value) (k : string) (default : value) : outcome value :=
  match v with
  | VDict d => Return (match d !! k with Some x => x | None => default end)
  | _ => Raise AttributeError
  end.

(** [v[k]] for a string [k]. *)
Definition getitem (v : value) (k : string) : outcome value :=
  match v with
  | VDict d => match d !! k with Some x => Return x | None => Raise KeyError end
  | _ => Raise TypeError
  end.

(** [v[0]] *)
Definition getitem0 (v : value) : outcome value :=
  match v with
  | VList l => match l with x :: _ => Return x | [] => Raise IndexError end
  | VStr s => match first_char s with Some c => Return (VStr c) | None => Raise IndexError end
  | VDict _ => Raise KeyError
  | _ => Raise TypeError
  end.

Definition is_str (k : string) (v : value) : bool :=
  match v with
  | VStr s => String.eqb s k
  | _ => false
  end.

(** [k in v] for a string [k]. *)
Definition contains (k : string) (v : value) : outcome bool :=
  match v with
  | VDict d => Return (bool_decide (is_Some (d !! k)))
  | VList l => Return (existsb (is_str k) l)
  | VStr s => Return (Text.contains k s)
  | _ => Raise TypeError
  end.

End Py.

(** ** Console and live-display effects *)

Module Effect.
Import Py.

Inductive event :=
| ConsolePrint (text : string) (style : option string)
| LiveUpdate (markup code_theme : string)
| Sleep.

(** A computation that writes to the console and may raise: the events
    emitted up to its return or up to the exception. *)
Record io (A : Type) := IO { trace : list event; result : outcome A }.
Arguments IO {A} trace result.
Arguments trace {A} _.
Arguments result {A} _.

#[export] Instance io_ret : MRet io := fun A a => IO [] (Return a).

#[export] Instance io_bind : MBind io := fun A B k m =>
  match result m with
  | Return a => IO (trace m ++ trace (k a)) (result (k a))
  | Raise e => IO (trace m) (Raise e)
  end.

Definition emit (e : event) : io unit := IO [e] (Return tt).

(** The [Console] of rich, as far as the program depends on what it does
    with a text that holds data: [render text] is the text displayed once
    the console markup of [text] is rendered, or [None] when the console
    raises [MarkupError] (a closing tag that matches no open tag, for one).
    The fixed texts of the program are well-formed markup and are printed
    without consulting it. *)
Record Console := { render : string -> option string }.

Definition lift {A} (o : outcome A) : io A := IO [] o.

End Effect.

(** ** [bytes.decode("utf-8")] *)

Module Utf8.
Import Py.

#[local] Open Scope N_scope.

Definition within (lo hi : N) (b : byte) : bool :=
  let n := Byte.to_N b in (lo <=? n) && (n <=? hi).

Definition cont : byte -> bool := within 128 191.

(** The range of the second byte of a three-byte and of a four-byte
    sequence: it excludes overlong forms, surrogates and code points above
    U+10FFFF. *)
Definition second3 (lead : N) : byte -> bool :=
  if lead =? 224 then within 160 191
  else if lead =? 237 then within 128 159
  else within 128 191.

Definition second4 (lead : N) : byte -> bool :=
  if lead =? 240 then within 144 191
  else if lead =? 244 then within 128 143
  else within 128 191.

Fixpoint valid (l : list byte) : bool :=
  match l with
  | [] => true
  | b0 :: r0 =>
      let n0 := Byte.to_N b0 in
      if n0 <? 128 then valid r0
      else
        match r0 with
        | [] => false
        | b1 :: r1 =>
            if (194 <=? n0) && (n0 <=? 223) then cont b1 && valid r1
            else
              match r1 with
              | [] => false
              | b2 :: r2 =>
                  if (224 <=? n0) && (n0 <=? 239)
                  then second3 n0 b1 && cont b2 && valid r2
                  else
                    match r2 with
                    | [] => false
                    | b3 :: r3 =>
                        (240 <=? n0) && (n0 <=? 244) && second4 n0 b1
                        && cont b2 && cont b3 && valid r3
                    end
              end
        end
  end.

Definition decode (b : list byte) : outcome string :=
  if valid b then Return (Text.of_bytes b) else Raise UnicodeDecodeError.

(** [chr(cp)] in the encoding used for [str]; a lone surrogate keeps its
    three-byte form. *)
Definition chr (cp : N) : string :=
  let a (n : N) := ascii_of_N n in
  let tail (n : N) := 128 + n mod 64 in
  if cp <? 128 then String (a cp) ""
  else if cp <? 2048 then String (a (192 + cp / 64)) (String (a (tail cp)) "")
  else if cp <? 65536 then
    String (a (224 + cp / 4096))
      (String (a (tail (cp / 64))) (String (a (tail cp)) ""))
  else
    String (a (240 + cp / 262144))
      (String (a (tail (cp / 4096)))
         (String (a (tail (cp / 64))) (String (a (tail cp)) ""))).

End Utf8.

(** ** [json.loads]

    The decoder of Python's [json] module with its default settings, on a
    [str]: [Json.loads s] is [None] where the module raises
    [JSONDecodeError].  The interpreter's resource limits (the cap on the
    digits of an integer literal, the recursion limit on nesting) are not
    part of the model. *)

Module Json.
Import Py.

Definition whitespace (c : ascii) : bool :=
  let n := N_of_ascii c in
  ((n =? 32) || (n =? 9) || (n =? 10) || (n =? 13))%N.

Fixpoint skip_ws (s : string) : string :=
  match s with
  | String c r => if whitespace c then skip_ws r else s
  | "" => ""
  end.

(** *** String literals *)

Definition hex (c : ascii) : option N :=
  let n := N_of_ascii c in
  if ((48 <=? n) && (n <=? 57))%N then Some (n - 48)%N
  else if ((65 <=? n) && (n <=? 70))%N then Some (n - 55)%N
  else if ((97 <=? n) && (n <=? 102))%N then Some (n - 87)%N
  else None.

Definition hex4 (a b c d : ascii) : option N :=
  match hex a, hex b, hex c, hex d with
  | Some x, Some y, Some z, Some w => Some (((x * 16 + y) * 16 + z) * 16 + w)%N
  | _, _, _, _ => None
  end.

Definition high_surrogate (u : N) : bool := ((55296 <=? u) && (u <=? 56319))%N.
Definition low_surrogate (u : N) : bool := ((56320 <=? u) && (u <=? 57343))%N.
Definition join_surrogates (hi lo : N) : N :=
  (65536 + ((hi - 55296) * 1024 + (lo - 56320)))%N.

(** The character a one-letter escape stands for. *)
Definition backslash (c : ascii) : option ascii :=
  if Ascii.eqb c Text.DQ then Some Text.DQ
  else if Ascii.eqb c "\" then Some "\"%char
  else if Ascii.eqb c "/" then Some "/"%char
  else if Ascii.eqb c "b" then Some "008"%char
  else if Ascii.eqb c "f" then Some "012"%char
  else if Ascii.eqb c "n" then Some "010"%char
  else if Ascii.eqb c "r" then Some "013"%char
  else if Ascii.eqb c "t" then Some "009"%char
  else None.

Definition prepend (p : string) (r : option (string * string)) : option (string * string) :=
  match r with
  | Some (s, rest) => Some (p +:+ s, rest)
  | None => None
  end.

(** [scanstring s]: [s] starts just after the opening quote; the result is
    the decoded text and what follows the closing quote. *)
Fixpoint scanstring (s : string) : option (string * string) :=
  match s with
  | "" => None
  | String c r =>
      if Ascii.eqb c Text.DQ then Some ("", r)
      else if Ascii.eqb c "\" then
        match r with
        | "" => None
        | String e r1 =>
            match backslash e with
            | Some ch => prepend (String ch "") (scanstring r1)
            | None =>
                if Ascii.eqb e "u" then
                  match r1 with
                  | String h1 (String h2 (String h3 (String h4 r2))) =>
                      match hex4 h1 h2 h3 h4 with
                      | None => None
                      | Some uni =>
                          if high_surrogate uni then
                            match r2 with
                            | String b (String u r3) =>
                                if Ascii.eqb b "\" && Ascii.eqb u "u" then
                                  match r3 with
                                  | String g1 (String g2 (String g3 (String g4 r4))) =>
                                      match hex4 g1 g2 g3 g4 with
                                      | None => None
                                      | Some uni2 =>
                                          if low_surrogate uni2
                                          then prepend (Utf8.chr (join_surrogates uni uni2)) (scanstring r4)
                                          else prepend (Utf8.chr uni) (scanstring r2)
                                      end
                                  | _ => None
                                  end
                                else prepend (Utf8.chr uni) (scanstring r2)
                            | _ => prepend (Utf8.chr uni) (scanstring r2)
                            end
                          else prepend (Utf8.chr uni) (scanstring r2)
                      end
                  | _ => None
                  end
                else None
            end
        end
      else if (N_of_ascii c <? 32)%N then None
      else prepend (String c "") (scanstring r)
  end.

(** *** Numbers *)

Definition digit (c : ascii) : bool :=
  let n := N_of_ascii c in ((48 <=? n) && (n <=? 57))%N.

(** The longest run of digits at the head of [s], and the rest. *)
Fixpoint digits (s : string) : string * string :=
  match s with
  | String c r =>
      if digit c then let '(ds, rest) := digits r in (String c ds, rest)
      else ("", s)
  | "" => ("", "")
  end.

Fixpoint decimal_from (acc : Z) (ds : string) : Z :=
  match ds with
  | String c r => decimal_from (10 * acc + (Z.of_N (N_of_ascii c) - 48)) r
  | "" => acc
  end.

Definition decimal : string -> Z := decimal_from 0.

(** An optional minus sign, then [0] or a digit [1-9] and any digits. *)
Definition integer_part (s : string) : option (bool * string * string) :=
  let '(negative, s1) :=
    match s with
    | String c r => if Ascii.eqb c "-" then (true, r) else (false, s)
    | "" => (false, s)
    end in
  match s1 with
  | String c r =>
      if Ascii.eqb c "0" then Some (negative, "0", r)
      else if digit c then let '(ds, rest) := digits r in Some (negative, String c ds, rest)
      else None
  | "" => None
  end.

(** A point and at least one digit. *)
Definition fraction_part (s : string) : option (string * string) :=
  match s with
  | String c r =>
      if Ascii.eqb c "." then
        match digits r with
        | ("", _) => None
        | (ds, rest) => Some (ds, rest)
        end
      else None
  | "" => None
  end.

(** [e] or [E], an optional sign and at least one digit. *)
Definition exponent_part (s : string) : option (Z * string) :=
  match s with
  | String c r =>
      if Ascii.eqb c "e" || Ascii.eqb c "E" then
        let '(sign, r1) :=
          match r with
          | String c' r' =>
              if Ascii.eqb c' "-" then (-1, r')
              else if Ascii.eqb c' "+" then (1, r')
              else (1, r)
          | "" => (1, r)
          end in
        match digits r1 with
        | ("", _) => None
        | (ds, rest) => Some (sign * decimal ds, rest)
        end
      else None
  | "" => None
  end.

Definition match_number (s : string) : option (value * string) :=
  match integer_part s with
  | None => None
  | Some (negative, ip, r1) =>
      let sign := if negative then -1 else 1 in
      match fraction_part r1, exponent_part r1 with
      | None, None => Some (VInt (sign * decimal ip), r1)
      | None, Some (e, r2) => Some (VFloat (FDec (sign * decimal ip) e), r2)
      | Some (fp, r2), _ =>
          let m := sign * decimal (ip +:+ fp) in
          let scale := Z.of_nat (String.length fp) in
          match exponent_part r2 with
          | Some (e, r3) => Some (VFloat (FDec m (e - scale)), r3)
          | None => Some (VFloat (FDec m (- scale)), r2)
          end
      end
  end.

(** [s] without its prefix [p], when it starts with [p]. *)
Definition strip (p s : string) : option string :=
  if Text.startswith p s then Some (Text.drop (String.length p) s) else None.

(** [null], [true], [false], a number, [NaN], [Infinity], [-Infinity]:
    the branches of [scan_once] that are neither a string nor a
    container, in its order. *)
Definition scan_atom (s : string) : option (value * string) :=
  match strip "null" s with Some r => Some (VNone, r) | None =>
  match strip "true" s with Some r => Some (VBool true, r) | None =>
  match strip "false" s with Some r => Some (VBool false, r) | None =>
  match match_number s with Some vr => Some vr | None =>
  match strip "NaN" s with Some r => Some (VFloat FNaN, r) | None =>
  match strip "Infinity" s with Some r => Some (VFloat (FInf false), r) | None =>
  match strip "-Infinity" s with Some r => Some (VFloat (FInf true), r) | None =>
  None end end end end end end end.

(** *** Values

    [scan_once], [JSONObject] and [JSONArray] call one another; the
    recursion is bounded by [fuel], and [fuel_for] is always enough
    ([scan_once_fuel] below). *)

Inductive scan :=
| OutOfFuel
| Malformed
| Scanned (v : value) (rest : string).

Definition atom (r : option (value * string)) : scan :=
  match r with
  | Some (v, rest) => Scanned v rest
  | None => Malformed
  end.

Fixpoint scan_once (fuel : nat) (s : string) {struct fuel} : scan :=
  match fuel with
  | O => OutOfFuel
  | S fuel =>
      match s with
      | "" => Malformed
      | String c r =>
          if Ascii.eqb c Text.DQ then
            match scanstring r with
            | Some (text, rest) => Scanned (VStr text) rest
            | None => Malformed
            end
          else if Ascii.eqb c "{" then
            match skip_ws r with
            | String c1 r1 =>
                if Ascii.eqb c1 "}" then Scanned (VDict ∅) r1
                else if Ascii.eqb c1 Text.DQ then JSONObject fuel ∅ r1
                else Malformed
            | "" => Malformed
            end
          else if Ascii.eqb c "[" then
            match skip_ws r with
            | String c1 r1 =>
                if Ascii.eqb c1 "]" then Scanned (VList []) r1
                else JSONArray fuel [] (String c1 r1)
            | "" => Malformed
            end
          else atom (scan_atom s)
      end
  end

(** [s] starts just after the opening quote of a key; [pairs] holds the
    members read so far, a later one replacing an earlier one of the same
    key as [dict(pairs)] does. *)
with JSONObject (fuel : nat) (pairs : gmap string value) (s : string) {struct fuel} : scan :=
  match fuel with
  | O => OutOfFuel
  | S fuel =>
      match scanstring s with
      | None => Malformed
      | Some (key, r) =>
          match skip_ws r with
          | String c1 r1 =>
              if Ascii.eqb c1 ":" then
                match scan_once fuel (skip_ws r1) with
                | Scanned v r2 =>
                    match skip_ws r2 with
                    | String c3 r3 =>
                        if Ascii.eqb c3 "}" then Scanned (VDict (<[key:=v]> pairs)) r3
                        else if Ascii.eqb c3 "," then
                          match skip_ws r3 with
                          | String c4 r4 =>
                              if Ascii.eqb c4 Text.DQ
                              then JSONObject fuel (<[key:=v]> pairs) r4
                              else Malformed
                          | "" => Malformed
                          end
                        else Malformed
                    | "" => Malformed
                    end
                | other => other
                end
              else Malformed
          | "" => Malformed
          end
      end
  end

(** [s] starts at an element; [values] holds the elements read so far,
    last first. *)
with JSONArray (fuel : nat) (values : list value) (s : string) {struct fuel} : scan :=
  match fuel with
  | O => OutOfFuel
  | S fuel =>
      match scan_once fuel s with
      | Scanned v r =>
          match skip_ws r with
          | String c1 r1 =>
              if Ascii.eqb c1 "]" then Scanned (VList (rev (v :: values))) r1
              else if Ascii.eqb c1 "," then JSONArray fuel (v :: values) (skip_ws r1)
              else Malformed
          | "" => Malformed
          end
      | other => other
      end
  end.

Definition fuel_for (s : string) : nat := 2 * String.length s + 1.

(** [json.loads(s)]: one value, with white space allowed around it and
    nothing else after it. *)
Definition loads (s : string) : option value :=
  let s := skip_ws s in
  match scan_once (fuel_for s) s with
  | Scanned v rest =>
      match skip_ws rest with
      | "" => Some v
      | String _ _ => None
      end
  | _ => None
  end.

End Json.

(** ** The streaming path of [class CLI] *)

Module CLI.
Import Py Effect.

(** The fields of [self] the streaming path reads. *)
Record t := { verbose : bool; config : gmap string string; console : Console }.

(** [self.config[key]] *)
Definition config_item (self : t) (key : string) : outcome string :=
  match config self !! key with
  | Some v => Return v
  | None => Raise KeyError
  end.

(** A line of the response: [Union[bytes, str]]. *)
Inductive line :=
| Bytes (b : list byte)
| Str (s : string).

(** [not line] *)
Definition blank (l : line) : bool :=
  match l with
  | Bytes [] | Str "" => true
  | _ => false
  end.

(** The [for k in (...)] loop of [get_reasoning_content]. *)
Fixpoint first_present (keys : list string) (delta : value) : outcome value :=
  match keys with
  | [] => Return VNone
  | k :: keys =>
      present ← Py.contains k delta;
      if present : bool then Py.getitem delta k else first_present keys delta
  end.

Definition get_reasoning_content (delta : value) : outcome value :=
  first_present ["reasoning_content"; "reasoning"] delta.

Definition decode_error : string := "[red]Error decoding response JSON[/red]".
Definition decode_error_data (payload : string) : string :=
  "[red]Error JSON data: " +:+ payload +:+ "[/red]".

(** [self.console.print(text)] for a text built from data: the console
    renders the markup of the text, and its [MarkupError] is not caught. *)
Definition console_print (self : t) (text : string) : io unit :=
  match render (console self) text with
  | Some _ => emit (ConsolePrint text None)
  | None => lift (Raise MarkupError)
  end.

(** [line.decode("utf-8")] for [bytes], the line itself for [str]. *)
Definition decoded (l : line) : outcome string :=
  match l with
  | Bytes b => Utf8.decode b
  | Str s => Return s
  end.

Definition _parse_stream_line (self : t) (l : line) : io value :=
  if blank l then mret VNone
  else
    text ← lift (decoded l);
    if negb (Text.startswith "data: " text) then mret VNone
    else
      let text := Text.drop 6 text in
      if String.eqb text "[DONE]" then mret VNone
      else
        match Json.loads text with
        | Some json_data =>
            choices ← lift (Py.get json_data "choices" VNone);
            if negb (truthy choices) then mret VNone else mret json_data
        | None =>
            emit (ConsolePrint decode_error None);;
            (if verbose self
             then console_print self (decode_error_data text)
             else mret tt);;
            mret VNone
        end.

Definition quote_header : string := "> Reasoning:" +:+ Text.LF +:+ "> ".
Definition quote_lines (reason : string) : string :=
  Text.replace "010" (Text.LF +:+ "> ") reason.
Definition block_end : string := Text.LF +:+ Text.LF.

Definition _process_reasoning_content
  (reason full_completion : string) (in_reasoning : bool) : string * bool :=
  let '(full_completion, in_reasoning) :=
    if negb in_reasoning then (quote_header, true)
    else (full_completion, in_reasoning) in
  (full_completion +:+ quote_lines reason, in_reasoning).

Definition _process_regular_content
  (content full_completion : string) (in_reasoning : bool) : string * bool :=
  let '(full_completion, in_reasoning) :=
    if in_reasoning then (full_completion +:+ block_end, false)
    else (full_completion, in_reasoning) in
  (full_completion +:+ content, in_reasoning).

(** The variables of the loop of [_print_stream]. *)
Record vars := Vars { full_content : string; in_reasoning : bool; cursor_index : nat }.

Definition cursor_chars : list string := ["_"; " "].

(** [json_data["choices"][0]["delta"]] *)
Definition delta_of (json_data : value) : outcome value :=
  choices ← Py.getitem json_data "choices";
  choice ← Py.getitem0 choices;
  Py.getitem choice "delta".

(** The dispatch on [reason]: a reason other than [None] goes to
    [_process_reasoning_content], whose [reason.replace] needs a [str];
    otherwise [delta.get("content", "") or ""] goes to
    [_process_regular_content], whose [+=] needs a [str]. *)
Definition process_delta (delta : value) (full_content : string) (in_reasoning : bool)
  : outcome (string * bool) :=
  reason ← get_reasoning_content delta;
  match reason with
  | VNone =>
      content ← Py.get delta "content" (VStr "");
      match (if truthy content then content else VStr "") with
      | VStr content => Return (_process_regular_content content full_content in_reasoning)
      | _ => Raise TypeError
      end
  | VStr reason => Return (_process_reasoning_content reason full_content in_reasoning)
  | _ => Raise AttributeError
  end.

(** One iteration of the loop over [response.iter_lines()]. *)
Definition iteration (self : t) (v : vars) (l : line) : io vars :=
  json_data ← _parse_stream_line self l;
  if negb (truthy json_data) then mret v
  else
    delta ← lift (delta_of json_data);
    '(full_content, in_reasoning) ←
      lift (process_delta delta (full_content v) (in_reasoning v));
    cursor ← lift (match cursor_chars !! cursor_index v with
                   | Some c => Return c
                   | None => Raise IndexError
                   end);
    code_theme ← lift (config_item self "CODE_THEME");
    emit (LiveUpdate (full_content +:+ cursor) code_theme);;
    emit Sleep;;
    mret (Vars full_content in_reasoning ((cursor_index v + 1) mod 2)).

Fixpoint iterate (self : t) (v : vars) (lines : list line) : io vars :=
  match lines with
  | [] => mret v
  | l :: lines => v ← iteration self v l; iterate self v lines
  end.

Definition initial : vars := Vars "" false 0.

(** [_print_stream(response)], with [lines] the lines that
    [response.iter_lines()] yields. *)
Definition _print_stream (self : t) (lines : list line) : io string :=
  emit (ConsolePrint "Assistant:" (Some "bold green"));;
  v ← iterate self initial lines;
  code_theme ← lift (config_item self "CODE_THEME");
  emit (LiveUpdate (full_content v) code_theme);;
  mret (full_content v).

End CLI.

(** ** The chat-session store

    The module [yaicli.chat_manager] ([FileChatManager]) is exercised by
    [tests/test_chat_manage.py] but is not among the sources; the store is
    modelled from the specification (sections 3, 4.1, 4.2 and 6). *)

Module ChatStore.

(** Modelled from the spec: the [{role, content}] message record of a
    history, whose class is in the missing [chat_manager] module. *)
Record message := Message { role : string; content : string }.

(** Modelled from the spec: the session file schema
    [{title, date, history}] of the missing [chat_manager] module. *)
Record session := Session {
  file_title : string;
  file_date : string;
  file_history : list message
}.

(** Modelled from the spec: a file of the session directory of the missing
    [chat_manager] module, with its modification time; [body] is [None]
    when the content does not parse. *)
Record file := File { mtime : N; body : option session }.

(** Modelled from the spec: the reading of the clock that the missing
    [save_chat] takes, as calendar fields and as Unix seconds. *)
Record timestamp := Timestamp {
  year : nat; month : nat; day : nat;
  hour : nat; minute : nat; second : nat;
  unix : N
}.

(** Modelled from the spec: the [{index, title, date}] record that the
    missing [_parse_filename] and [list_chats] return. *)
Record chat_info := ChatInfo { index : nat; title : string; date : string }.

(** Modelled from the spec: the [{title, history}] result of the missing
    [load_chat] and [load_chat_by_title]. *)
Record chat := Chat { chat_title : string; history : list message }.

(** Modelled from the spec: the state the missing [FileChatManager] owns,
    that is the directory, the cap [MAX_SAVED_CHATS] and the lazily built
    lookup cache (each listed record with the file name it came from). *)
Record store := Store {
  dir : gmap string file;
  max_saved_chats : nat;
  cache : option (list (chat_info * string))
}.

(** *** FilenameCodec *)

(** Modelled from the spec: the decimal digits of the missing file name
    encoder. *)
Definition digit_char (d : nat) : ascii := ascii_of_nat (48 + d mod 10).

(** Modelled from the spec: the two-digit fields of [YYYYMMDD-HHMMSS] in
    the missing file name encoder. *)
Definition two (n : nat) : string :=
  String (digit_char (n / 10)) (String (digit_char n) "").

(** Modelled from the spec: the four-digit year of [YYYYMMDD-HHMMSS] in
    the missing file name encoder. *)
Definition four (n : nat) : string := two (n / 100) +:+ two n.

(** Modelled from the spec: [YYYYMMDD-HHMMSS], the time part of a file
    name written by the missing [save_chat]. *)
Definition stamp (t : timestamp) : string :=
  four (year t) +:+ two (month t) +:+ two (day t) +:+ "-"
  +:+ two (hour t) +:+ two (minute t) +:+ two (second t).

(** Modelled from the spec: the characters a time part is made of, in the
    file names of the missing [save_chat]. *)
Definition stamp_char (c : ascii) : bool := Json.digit c || Ascii.eqb c "-".

(** Modelled from the spec: the display form [YYYY-MM-DD HH:MM] of a
    time, used by the missing [save_chat] and [_parse_filename]. *)
Definition display (t : timestamp) : string :=
  four (year t) +:+ "-" +:+ two (month t) +:+ "-" +:+ two (day t) +:+ " "
  +:+ two (hour t) +:+ ":" +:+ two (minute t).

(** Modelled from the spec: spaces to underscores, the title in a file
    name of the missing encoder. *)
Definition slug (title : string) : string := Text.replace " " "_" title.

(** Modelled from the spec: underscores to spaces, the title recovered from
    a file name by the missing decoder. *)
Definition unslug (s : string) : string := Text.replace "_" " " s.

(** Modelled from the spec: the literal token between the time part and the
    title in the file names of the missing codec. *)
Definition separator : string := "-title-".

(** Modelled from the spec: the extension of the session files of the
    missing store. *)
Definition extension : string := ".json".

(** Modelled from the spec: [encode(title, timestamp)] of the missing
    FilenameCodec, [<YYYYMMDD-HHMMSS>-title-<slug>.json]. *)
Definition encode (title : string) (t : timestamp) : string :=
  stamp t +:+ separator +:+ slug title +:+ extension.

(** Modelled from the spec: the split of a string at the first occurrence
    of a separator, for the missing decoder. *)
Fixpoint partition (sep s : string) : option (string * string) :=
  if Text.startswith sep s then Some ("", Text.drop (String.length sep) s)
  else
    match s with
    | "" => None
    | String c r =>
        match partition sep r with
        | Some (before, after) => Some (String c before, after)
        | None => None
        end
    end.

(** Modelled from the spec: a file name without its final [.json], for
    the missing decoder. *)
Fixpoint strip_extension (name : string) : option string :=
  if String.eqb name extension then Some ""
  else
    match name with
    | "" => None
    | String c r =>
        match strip_extension r with
        | Some s => Some (String c s)
        | None => None
        end
    end.

(** Modelled from the spec: the stem that the missing decoder works on. *)
Definition stem (name : string) : string :=
  match strip_extension name with
  | Some s => s
  | None => name
  end.

(** Modelled from the spec: the date shown for the time part of a file
    name by the missing decoder, [YYYY-MM-DD HH:MM], or the empty string
    when the part is not eight digits, a dash and six digits. *)
Definition display_date (s : string) : string :=
  match list_ascii_of_string s with
  | [y1; y2; y3; y4; m1; m2; d1; d2; dash; h1; h2; n1; n2; s1; s2] =>
      if forallb Json.digit [y1; y2; y3; y4; m1; m2; d1; d2; h1; h2; n1; n2; s1; s2]
         && Ascii.eqb dash "-"
      then string_of_list_ascii
             [y1; y2; y3; y4; "-"; m1; m2; "-"; d1; d2; " "; h1; h2; ":"; n1; n2]%char
      else ""
  | _ => ""
  end.

(** Modelled from the spec: [decode(filename, assignedIndex)] of the
    missing FilenameCodec; an irregular name gives its stem as title and
    no date. *)
Definition decode (name : string) (assigned : nat) : chat_info :=
  match partition separator (stem name) with
  | Some (before, after) => ChatInfo assigned (unslug after) (display_date before)
  | None => ChatInfo assigned (unslug (stem name)) ""
  end.

(** Modelled from the spec: the title under which the missing store lists
    a file. *)
Definition title_of (name : string) : string := title (decode name 0).

(** *** ChatStore *)

(** Modelled from the spec: the order of the listing of the missing
    [list_chats], by modification time, descending. *)
Definition newest_first (a b : string * file) : Prop := (mtime b.2 <= mtime a.2)%N.

(** Modelled from the spec: the order in which the missing [save_chat]
    evicts, by modification time, ascending. *)
Definition oldest_first (a b : string * file) : Prop := (mtime a.2 <= mtime b.2)%N.

#[export] Instance newest_first_dec a b : Decision (newest_first a b) :=
  decide (mtime b.2 <= mtime a.2)%N.
#[export] Instance oldest_first_dec a b : Decision (oldest_first a b) :=
  decide (mtime a.2 <= mtime b.2)%N.

(** Modelled from the spec: the scan of the directory behind the missing
    [list_chats], newest file first, indexes from 1. *)
Definition scan (d : gmap string file) : list (chat_info * string) :=
  imap (fun i (p : string * file) => (decode p.1 (S i), p.1))
       (merge_sort newest_first (map_to_list d)).

(** Modelled from the spec: the lazily built cache of the missing
    [FileChatManager]. *)
Definition chats_map (st : store) : list (chat_info * string) * store :=
  match cache st with
  | Some c => (c, st)
  | None =>
      let c := scan (dir st) in
      (c, Store (dir st) (max_saved_chats st) (Some c))
  end.

(** Modelled from the spec: [refreshChats()] of the missing store. *)
Definition refresh_chats (st : store) : store :=
  Store (dir st) (max_saved_chats st) None.

(** Modelled from the spec: [listChats()] of the missing store. *)
Definition list_chats (st : store) : list chat_info * store :=
  let '(c, st) := chats_map st in (c.*1, st).

(** Modelled from the spec: title derivation of the missing
    [make_chat_title], that is the prompt cut to 50 characters (counted in
    the encoding) with spaces turned into underscores, or
    [Chat-<unix-timestamp>] without a prompt. *)
Definition make_chat_title (prompt : option string) (now : timestamp) : string :=
  match prompt with
  | Some p => slug (String.substring 0 50 p)
  | None => "Chat-" +:+ NilEmpty.string_of_uint (N.to_uint (unix now))
  end.

(** Modelled from the spec: the eviction step of the missing [save_chat],
    which deletes the oldest files beyond the cap and never the file just
    written. *)
Definition evict (cap : nat) (keep : string) (d : gmap string file) : gmap string file :=
  let candidates :=
    merge_sort oldest_first (filter (fun p : string * file => p.1 <> keep) (map_to_list d)) in
  foldr (fun p acc => delete p.1 acc) d (take (size d - cap) candidates).

(** Modelled from the spec: the title of the session that a file of the
    missing store holds, the [title] of the session file schema; a file that
    does not parse has none. *)
Definition session_title (f : file) : option string :=
  match body f with
  | Some s => Some (file_title s)
  | None => None
  end.

(** Modelled from the spec: [saveChat(history, title?)] of the missing
    store.  An empty history writes nothing and returns the empty
    string; otherwise the sessions saved under the same title are replaced
    by the new file, the oldest files beyond the cap are evicted, and the
    cache is dropped. *)
Definition save_chat (st : store) (now : timestamp)
  (h : list message) (explicit : option string) : string * store :=
  match h with
  | [] => ("", st)
  | _ :: _ =>
      let t := default (make_chat_title None now) explicit in
      let name := encode t now in
      let others :=
        filter (fun p : string * file => session_title p.2 <> Some t) (dir st) in
      let written := <[name := File (unix now) (Some (Session t (display now) h))]> others in
      (t, Store (evict (max_saved_chats st) name written) (max_saved_chats st) None)
  end.

(** Modelled from the spec: [loadChatByTitle(title)] of the missing
    store, keyed by the title of the session; a title under which no
    listed file holds a session gives the empty result, and so do a missing
    file and a file that does not parse. *)
Definition load_chat_by_title (st : store) (t : string) : option chat * store :=
  let '(c, st) := chats_map st in
  match List.find
          (fun e : chat_info * string =>
             bool_decide (dir st !! e.2 ≫= session_title = Some t)) c with
  | None => (None, st)
  | Some (_, name) =>
      match dir st !! name with
      | Some (File _ (Some s)) => (Some (Chat (file_title s) (file_history s)), st)
      | _ => (None, st)
      end
  end.

End ChatStore.

(** ** Sample inputs *)

Module Sample.
Import Py Effect CLI.

(** A console for texts without markup: a text that holds no square
    bracket and no emoji code is displayed as it is. *)
Definition plain : Console := {| render := fun text => Some text |}.

(** A [CLI] after [load_config] with the default configuration. *)
Definition quiet : CLI.t :=
  {| verbose := false; config := {[ "CODE_THEME" := "monokia" ]}; console := plain |}.

Definition hello : string := Text.q "data: {'choices':[{'delta':{'content':'Hello'}}]}".
Definition world : string := Text.q "data: {'choices':[{'delta':{'content':' World'}}]}".
Definition done : string := "data: [DONE]".

(** The stream of the specification's decoding example. *)
Definition hello_world : list string := [hello; world; done].

(** A chunk whose first choice has no [delta]. *)
Definition no_delta : string := Text.q "data: {'choices':[{}]}".

(** A chunk without [choices], as a keep-alive or usage record. *)
Definition no_choices : string := Text.q "data: {'id':'x','choices':[]}".


Definition reasoning_delta : value :=
  VDict {[ "reasoning_content" := VStr ("step 1" +:+ Text.LF +:+ "step 2") ]}.
Definition content_delta : value := VDict {[ "content" := VStr "Answer" ]}.
Definition empty_delta : value := VDict {[ "content" := VStr "" ]}.


Definition noon : ChatStore.timestamp :=
  ChatStore.Timestamp 2023 4 1 12 0 0 1680350400.

Definition empty_store : ChatStore.store := ChatStore.Store ∅ 10 None.

End Sample.

(** ** Quoted text *)

Module Markdown.

(** Every line feed of [s] is followed by the quote prefix. *)
Definition quoted (s : string) : Prop :=
  forall a rest, s = a +:+ String "010" rest -> Text.startswith "> " rest = true.

End Markdown.

(** ** More methods of [str] *)

Module PyStr.

(** [str.isspace] on the encoding of one code point: the one-byte
    characters U+0009 to U+000D and U+001C to U+0020, the two-byte U+0085 and
    U+00A0, and the three-byte U+1680, U+2000 to U+200A, U+2028, U+2029,
    U+202F, U+205F and U+3000. *)
Definition space1 (a : ascii) : bool :=
  let x := N_of_ascii a in
  (((9 <=? x) && (x <=? 13)) || ((28 <=? x) && (x <=? 32)))%N.

Definition space2 (a b : ascii) : bool :=
  let x := N_of_ascii a in
  let y := N_of_ascii b in
  ((x =? 194) && ((y =? 133) || (y =? 160)))%N.

Definition space3 (a b c : ascii) : bool :=
  let x := N_of_ascii a in
  let y := N_of_ascii b in
  let z := N_of_ascii c in
  (((x =? 225) && (y =? 154) && (z =? 128))
   || ((x =? 226) && (y =? 128)
       && (((128 <=? z) && (z <=? 138)) || (z =? 168) || (z =? 169) || (z =? 175)))
   || ((x =? 226) && (y =? 129) && (z =? 159))
   || ((x =? 227) && (y =? 128) && (z =? 128)))%N.

(** [s.lstrip()] *)
Fixpoint lstrip (s : string) : string :=
  match s with
  | "" => ""
  | String a r =>
      if space1 a then lstrip r
      else
        match r with
        | "" => s
        | String b r2 =>
            if space2 a b then lstrip r2
            else
              match r2 with
              | "" => s
              | String c r3 => if space3 a b c then lstrip r3 else s
              end
        end
  end.

(** [s] holds white space only: [not s.strip()]. *)
Definition blank (s : string) : bool := String.eqb (lstrip s) "".

(** [s.rstrip()]: the text up to the point from which only white space
    follows. *)
Fixpoint rstrip (s : string) : string :=
  match s with
  | "" => ""
  | String a r => if blank s then "" else String a (rstrip r)
  end.

(** [s.strip()] *)
Definition strip (s : string) : string := rstrip (lstrip s).

(** [s.lstrip(c)] and [s.rstrip(c)] for a one-character [c]. *)
Fixpoint lstrip_char (c : ascii) (s : string) : string :=
  match s with
  | String a r => if Ascii.eqb a c then lstrip_char c r else s
  | "" => ""
  end.

Fixpoint rstrip_char (c : ascii) (s : string) : string :=
  match s with
  | "" => ""
  | String a r =>
      match rstrip_char c r with
      | "" => if Ascii.eqb a c then "" else String a ""
      | r' => String a r'
      end
  end.

(** [s.split(sep)] for a one-character [sep]. *)
Fixpoint split (sep : ascii) (s : string) : list string :=
  match s with
  | "" => [""]
  | String a r =>
      if Ascii.eqb a sep then "" :: split sep r
      else
        match split sep r with
        | first :: rest => String a first :: rest
        | [] => [String a ""]
        end
  end.

(** [sep.join(l)] *)
Fixpoint join (sep : string) (l : list string) : string :=
  match l with
  | [] => ""
  | [x] => x
  | x :: l => x +:+ sep +:+ join sep l
  end.

(** [s.endswith(p)] *)
Fixpoint endswith (p s : string) : bool :=
  String.eqb s p ||
  match s with
  | "" => false
  | String _ r => endswith p r
  end.

(** [s[3:-3]], for a text whose first three and last three characters, if
    it has that many, are one byte each. *)
Definition slice_3_3 (s : string) : string :=
  String.substring 3 (String.length s - 6) s.

(** [s.lower()] for a text of ASCII characters. *)
Fixpoint lower_ascii (s : string) : string :=
  match s with
  | "" => ""
  | String a r =>
      let x := N_of_ascii a in
      String (if ((65 <=? x) && (x <=? 90))%N then ascii_of_N (x + 32) else a) (lower_ascii r)
  end.

End PyStr.

(** ** The conversation history *)

Module History.
Import Py Effect CLI.

(** A message of the conversation: [{"role": role, "content": content}]. *)
Record message := Message { role : string; content : string }.

(** The fields of [self] that hold the conversation. [__init__] sets
    [history] to the empty list and [max_history_length] to 25. *)
Record state := State { history : list message; max_history_length : Z }.

Definition init : state := State [] 25.

(** [l[i:]] for a list [l] and an integer [i]: a negative [i] counts from
    the end, and an [i] beyond either end is clipped. *)
Definition slice_from {A} (i : Z) (l : list A) : list A :=
  let n := Z.of_nat (length l) in
  let start := if (i <? 0)%Z then Z.max (n + i) 0 else Z.min i n in
  drop (Z.to_nat start) l.

(** [_check_history_len()] *)
Definition _check_history_len (st : state) : state :=
  if (Z.of_nat (length (history st)) >? max_history_length st)%Z
  then State (slice_from (- max_history_length st) (history st)) (max_history_length st)
  else st.

(** [is_stream()] *)
Definition is_stream (self : CLI.t) : outcome bool :=
  stream ← config_item self "STREAM";
  mret (String.eqb stream "true").

(** [_build_messages(user_input)], with [system_prompt] the text that
    [get_system_prompt()] returns. *)
Definition _build_messages (system_prompt : string) (st : state) (user_input : string)
  : list message :=
  Message "system" system_prompt :: history st ++ [Message "user" user_input].

(** The two statements of [_handle_llm_response] that follow the printing:
    [history.extend] with the question and the answer, then
    [_check_history_len()]. *)
Definition remember (st : state) (user_input content : string) : state :=
  _check_history_len
    (State (history st ++ [Message "user" user_input; Message "assistant" content])
           (max_history_length st)).

Section Response.

(** An [httpx.Response]: its [iter_lines()] for the streaming path, and
    [_print_normal], which reads the body through [jmespath], as it is given. *)
Variable response : Type.
Variable iter_lines : response -> list line.
Variable _print_normal : CLI.t -> response -> io string.

(** [_handle_llm_response(response, user_input)]: the answer and the state
    it leaves. An exception leaves the state as it was. *)
Definition _handle_llm_response
  (self : CLI.t) (st : state) (r : response) (user_input : string) : io (string * state) :=
  stream ← lift (is_stream self);
  content ← (if stream : bool then _print_stream self (iter_lines r) else _print_normal self r);
  mret (content, remember st user_input content).

End Response.

(** The messages of a list of turns, each a question and its answer. *)
Definition transcript (turns : list (string * string)) : list message :=
  turns ≫= fun '(user_input, content) =>
    [Message "user" user_input; Message "assistant" content].

(** The state after the turns, each ended by [remember]. *)
Definition converse (st : state) (turns : list (string * string)) : state :=
  fold_left (fun st '(user_input, content) => remember st user_input content) turns st.

End History.

(** ** Configuration and start-up *)

Module Config.
Import Py Effect CLI.

(** An item of [DEFAULT_CONFIG_MAP]: [key: {"value": value, "env_key": env_key}]. *)
Record entry := Entry { key : string; value : string; env_key : string }.

Definition DEFAULT_CONFIG_MAP : list entry :=
  [ Entry "BASE_URL" "https://api.openai.com/v1" "YAI_BASE_URL";
    Entry "API_KEY" "" "YAI_API_KEY";
    Entry "MODEL" "gpt-4o" "YAI_MODEL";
    Entry "SHELL_NAME" "auto" "YAI_SHELL_NAME";
    Entry "OS_NAME" "auto" "YAI_OS_NAME";
    Entry "COMPLETION_PATH" "chat/completions" "YAI_COMPLETION_PATH";
    Entry "ANSWER_PATH" "choices[0].message.content" "YAI_ANSWER_PATH";
    Entry "STREAM" "true" "YAI_STREAM";
    Entry "CODE_THEME" "monokia" "YAI_CODE_THEME";
    Entry "TEMPERATURE" "0.7" "YAI_TEMPERATURE";
    Entry "TOP_P" "1.0" "YAI_TOP_P";
    Entry "MAX_TOKENS" "1024" "YAI_MAX_TOKENS" ].

Definition DEFAULT_CONFIG_INI : string :=
"[core]
PROVIDER=openai
BASE_URL=https://api.openai.com/v1
API_KEY=
MODEL=gpt-4o

# auto detect shell and os
SHELL_NAME=auto
OS_NAME=auto

# if you want to use custom completions path, you can set it here
COMPLETION_PATH=/chat/completions
# if you want to use custom answer path, you can set it here
ANSWER_PATH=choices[0].message.content

# true: streaming response
# false: non-streaming response
STREAM=true
CODE_THEME=monokia

TEMPERATURE=0.7
TOP_P=1.0
MAX_TOKENS=1024".

(** What [load_config] finds at [CONFIG_PATH]: no file, or a file that
    [configparser] reads, given by the items of its [core] section when it
    has one. *)
Inductive config_file :=
| Absent
| Parsed (core : option (gmap string string)).

(** What [load_config], [run] and [main] do besides computing. *)
Inductive effect :=
| Print (text : string)
| MakeParent
| WriteConfig (text : string)
| Echo (text : string)
| EchoHelp.

(** [{k: v["value"] for k, v in DEFAULT_CONFIG_MAP.items()}] *)
Definition defaults : gmap string string :=
  list_to_map ((fun e => (key e, value e)) <$> DEFAULT_CONFIG_MAP).

(** [merged_config.update({k: v for k, v in core.items() if v.strip()})] *)
Definition from_file (core merged_config : gmap string string) : gmap string string :=
  filter (fun kv => PyStr.strip kv.2 <> "") core ∪ merged_config.

(** The loop over [DEFAULT_CONFIG_MAP.items()] with [getenv]. *)
Definition from_env (env merged_config : gmap string string) : gmap string string :=
  fold_left
    (fun merged_config e =>
       match env !! env_key e with
       | Some env_value => <[key e := env_value]> merged_config
       | None => merged_config
       end)
    DEFAULT_CONFIG_MAP merged_config.

(** [self.config.get(key, default)] *)
Definition get (config : gmap string string) (key default : string) : string :=
  match config !! key with
  | Some v => v
  | None => default
  end.

(** [not self.config.get(key)]: the key is missing or holds the empty text. *)
Definition unset (config : gmap string string) (key : string) : bool :=
  match config !! key with
  | Some v => String.eqb v ""
  | None => true
  end.

(** The truth value of an [Optional[str]]. *)
Definition given (prompt : option string) : bool :=
  match prompt with
  | Some p => negb (String.eqb p "")
  | None => false
  end.

(** The [url] of [post]. *)
Definition post_url (config : gmap string string) : string :=
  PyStr.rstrip_char "/" (get config "BASE_URL" "") +:+ "/"
  +:+ PyStr.lstrip_char "/" (get config "COMPLETION_PATH" "").

Inductive mode := EXEC_MODE | CHAT_MODE | TEMP_MODE.

(** How [run] ends: [raise typer.Exit(code)], [self._run_repl()] or
    [self._run_once(prompt, shell)], with [self] as it is then. *)
Inductive started :=
| Exit (code : Z)
| RunRepl (self : CLI.t) (current_mode : mode)
| RunOnce (self : CLI.t) (current_mode : mode) (prompt : string) (shell : bool).

Section Load.

(** [str.lower] *)
Variable lower : string -> string.

(** [Console()], the console that [CLI.__init__] creates. *)
Variable new_console : Console.

(** [load_config()], given the file and the environment. *)
Definition load_config (file : config_file) (env : gmap string string)
  : list effect * gmap string string :=
  let merged_config := defaults in
  let '(effects, merged_config) :=
    match file with
    | Absent =>
        ([Print "[bold yellow]Creating default configuration file.[/bold yellow]";
          MakeParent; WriteConfig DEFAULT_CONFIG_INI],
         merged_config)
    | Parsed (Some core) => ([], from_file core merged_config)
    | Parsed None => ([], merged_config)
    end in
  let merged_config := from_env env merged_config in
  let merged_config :=
    <["STREAM" := lower (get merged_config "STREAM" "true")]> merged_config in
  (effects, merged_config).

(** [run(chat, shell, prompt)] on a [CLI(verbose)]. *)
Definition run (verbose : bool) (file : config_file) (env : gmap string string)
  (chat shell : bool) (prompt : string) : list effect * started :=
  let '(effects, config) := load_config file env in
  let self := Build_t verbose config new_console in
  if unset config "API_KEY"
  then
    (effects ++
       [Print "[yellow]API key not set. Please set in ~/.config/yaicli/config.ini or AI_API_KEY env[/]"],
     Exit 1)
  else if chat then (effects, RunRepl self CHAT_MODE)
  else (effects, RunOnce self (if shell then EXEC_MODE else TEMP_MODE) prompt shell).

(** [main(ctx, prompt, chat, shell, verbose, template)]: what it does, and
    how the [run] it calls ends, if it calls it. *)
Definition main (prompt : option string) (chat shell verbose template : bool)
  (file : config_file) (env : gmap string string) : list effect * option started :=
  if bool_decide (prompt = Some "") then ([Echo "Empty prompt, ignored"], None)
  else if template then ([Echo DEFAULT_CONFIG_INI], None)
  else if negb (given prompt) && negb chat then ([EchoHelp], None)
  else
    let '(effects, s) :=
      run verbose file env chat shell (if given prompt then default "" prompt else "") in
    (effects, Some s).

End Load.

End Config.

(** ** The generated command *)

Module Command.
Import Py Effect CLI PyStr.

(** [_filter_command(command)]; Python's [None] is [None]. *)
Definition _filter_command (command : string) : option string :=
  if String.eqb command "" || String.eqb (strip command) "" then Some ""
  else if negb (Text.contains "```" command) then Some (strip command)
  else
    let lines := split "010" (strip command) in
    if (length lines =? 1)%nat && Text.startswith "```" (hd "" lines)
       && endswith "```" (hd "" lines)
    then Some (strip (slice_3_3 (hd "" lines)))
    else if Text.startswith "```" (hd "" lines) then
      let content_lines := tl lines in
      let content_lines :=
        match content_lines with
        | [] => content_lines
        | _ :: _ =>
            if String.eqb (strip (List.last content_lines "")) "```"
            then removelast content_lines
            else content_lines
        end in
      Some (join Text.LF
              (strip <$> List.filter (fun line => negb (String.eqb (strip line) ""))
                                     content_lines))
    else None.

(** What [_confirm_and_execute] does, in order: [console.print] of a styled
    text, [console.print] of the [Panel] made of the command, recorded with
    the text that the panel displays, the question of [Prompt.ask], the line
    editor of [prompt] with its default, and
    [subprocess.call(cmd, shell=True)]. *)
Inductive action :=
| Print (text style : string)
| ShowPanel (displayed : string)
| Ask
| Edit (default : string)
| Call (cmd : string).

(** [_confirm_and_execute(content)], where [_input] is what [Prompt.ask]
    returns and [edited] what [prompt] returns if it is called: what is done,
    and how the call ends.  The panel is made of [cmd] as it is, so the
    console renders the markup of [cmd]: it displays the rendered text, and
    its [MarkupError] ends the call before the question. *)
Definition _confirm_and_execute (self : CLI.t) (content _input edited : string)
  : list action * outcome unit :=
  match _filter_command content with
  | Some (String _ _ as cmd) =>
      match render (console self) cmd with
      | None => ([], Raise MarkupError)
      | Some displayed =>
          ([ShowPanel displayed; Ask] ++
           (if String.eqb _input "y" then [Print "Output:" "bold green"; Call cmd]
            else if String.eqb _input "e"
            then [Edit cmd; Print "Output:" "bold green"; Call edited]
            else []),
           Return tt)
      end
  | _ => ([Print "No command generated" "bold red"], Return tt)
  end.

End Command.

(** * Properties *)

(** ** The JSON decoder never runs out of fuel *)

Module JsonFacts.
Import Py Json.

#[local] Open Scope nat_scope.
#[local] Arguments hex4 : simpl never.
#[local] Arguments backslash : simpl never.
#[local] Arguments high_surrogate : simpl never.
#[local] Arguments low_surrogate : simpl never.
#[local] Arguments Utf8.chr : simpl never.
#[local] Arguments N.ltb : simpl never.
#[local] Arguments Ascii.eqb : simpl never.
#[local] Arguments andb : simpl never.

Lemma skip_ws_length s : String.length (skip_ws s) <= String.length s.
Proof.
  induction s as [|c r IH]; simpl; [lia|].
  destruct (whitespace c); simpl; lia.
Qed.

Lemma prepend_Some p o t r :
  prepend p o = Some (t, r) -> exists t', o = Some (t', r).
Proof. destruct o as [[t' r']|]; simpl; intros; simplify_eq; eauto. Qed.

Lemma scanstring_length_aux n :
  forall s t r, String.length s <= n -> scanstring s = Some (t, r) ->
    String.length r < String.length s.
Proof.
  induction n as [|n IH]; intros s t r Hn Hs.
  - destruct s; simpl in *; [done | lia].
  - destruct s as [|c s]; simpl in Hs; [done|].
    assert (Hrec : forall s' t', String.length s' <= String.length s ->
              scanstring s' = Some (t', r) -> String.length r < S (String.length s)).
    { intros s' t' Hle Hs'. apply IH in Hs'; simpl in *; lia. }
    simpl in *.
    repeat match goal with
        | H : Some _ = Some _ |- _ => inversion H; clear H; subst
        | H : None = Some _ |- _ => discriminate H
        | H : prepend _ _ = Some _ |- _ => apply prepend_Some in H as [? H]
        | H : scanstring ?x = Some _ |- _ => apply Hrec in H; [lia | simpl; lia]
        | H : context [match ?x with _ => _ end] |- _ => destruct x eqn:?
        end.
    all: lia.
Qed.

Lemma scanstring_length s t r :
  scanstring s = Some (t, r) -> String.length r < String.length s.
Proof. apply (scanstring_length_aux (String.length s)); lia. Qed.

Lemma digits_length s ds r :
  digits s = (ds, r) -> String.length r + String.length ds = String.length s.
Proof.
  revert ds r. induction s as [|c s IH]; simpl; intros ds r H.
  - by inversion H.
  - destruct (digit c).
    + destruct (digits s) as [ds' r'] eqn:E. inversion H; subst.
      specialize (IH _ _ eq_refl). simpl. lia.
    + inversion H; subst. simpl. lia.
Qed.

Lemma integer_part_length s neg ip r :
  integer_part s = Some (neg, ip, r) -> String.length r < String.length s.
Proof.
  unfold integer_part. intros H.
  destruct s as [|c s]; [done|].
  destruct (Ascii.eqb c "-").
  - destruct s as [|c' s]; [done|].
    destruct (Ascii.eqb c' "0"); [inversion H; subst; simpl; lia|].
    destruct (digit c'); [|done].
    destruct (digits s) as [ds rest] eqn:E. inversion H; subst.
    apply digits_length in E. simpl. lia.
  - destruct (Ascii.eqb c "0"); [inversion H; subst; simpl; lia|].
    destruct (digit c); [|done].
    destruct (digits s) as [ds rest] eqn:E. inversion H; subst.
    apply digits_length in E. simpl. lia.
Qed.

Lemma fraction_part_length s fp r :
  fraction_part s = Some (fp, r) -> String.length r <= String.length s.
Proof.
  unfold fraction_part. intros H.
  destruct s as [|c s]; [done|].
  destruct (Ascii.eqb c "."); [|done].
  destruct (digits s) as [ds rest] eqn:E. apply digits_length in E.
  destruct ds; [done|]. inversion H; subst. simpl in *. lia.
Qed.

Lemma exponent_part_length s e r :
  exponent_part s = Some (e, r) -> String.length r <= String.length s.
Proof.
  unfold exponent_part. intros H.
  destruct s as [|c s]; [done|].
  destruct (Ascii.eqb c "e" || Ascii.eqb c "E"); [|done].
  destruct s as [|c' s].
  - simpl in H. done.
  - destruct (Ascii.eqb c' "-"); [|destruct (Ascii.eqb c' "+")].
    all: match type of H with context [digits ?x] =>
           destruct (digits x) as [ds rest] eqn:E; apply digits_length in E end.
    all: destruct ds; [done|]; inversion H; subst; simpl in *; lia.
Qed.

Lemma match_number_length s v r :
  match_number s = Some (v, r) -> String.length r < String.length s.
Proof.
  unfold match_number. intros H.
  destruct (integer_part s) as [[[neg ip] r1]|] eqn:Ei; [|done].
  apply integer_part_length in Ei.
  destruct (fraction_part r1) as [[fp r2]|] eqn:Ef.
  - apply fraction_part_length in Ef.
    destruct (exponent_part r2) as [[e r3]|] eqn:Ee.
    + apply exponent_part_length in Ee. inversion H; subst. lia.
    + inversion H; subst. lia.
  - destruct (exponent_part r1) as [[e r2]|] eqn:Ee.
    + apply exponent_part_length in Ee. inversion H; subst. lia.
    + inversion H; subst. lia.
Qed.

Lemma drop_length n s : String.length (Text.drop n s) = String.length s - n.
Proof.
  revert s. induction n as [|n IH]; intros [|c s]; simpl; auto with lia.
Qed.

Lemma startswith_length p s :
  Text.startswith p s = true -> String.length p <= String.length s.
Proof.
  revert s. induction p as [|a p IH]; intros [|b s] H; simpl in *; try lia; try done.
  apply andb_prop in H as [_ H]. apply IH in H. lia.
Qed.

Lemma strip_length p s r :
  p <> "" -> strip p s = Some r -> String.length r < String.length s.
Proof.
  unfold strip. intros Hp H.
  destruct (Text.startswith p s) eqn:E; [|done].
  apply startswith_length in E. inversion H; subst.
  rewrite drop_length. destruct p; [done|]. simpl in *. lia.
Qed.

Lemma scan_atom_length s v r :
  scan_atom s = Some (v, r) -> String.length r < String.length s.
Proof.
  unfold scan_atom. intros H.
  repeat match type of H with
         | context [strip ?p s] =>
             destruct (strip p s) eqn:?;
             [inversion H; subst; eapply strip_length; [|eassumption]; done|]
         | context [match_number s] =>
             destruct (match_number s) as [[]|] eqn:?;
             [inversion H; subst; by eapply match_number_length|]
         end.
  done.
Qed.


#[local] Arguments scanstring : simpl never.
#[local] Arguments scan_atom : simpl never.
#[local] Arguments skip_ws : simpl never.

Lemma atom_Scanned o v r : atom o = Scanned v r -> o = Some (v, r).
Proof. destruct o as [[]|]; simpl; intros; by simplify_eq. Qed.

Ltac measure :=
  repeat match goal with
         | H : scanstring _ = Some _ |- _ => apply scanstring_length in H
         | H : scan_atom _ = Some _ |- _ => apply scan_atom_length in H
         | H : skip_ws ?x = _ |- _ =>
             let L := fresh "L" in
             pose proof (skip_ws_length x) as L; rewrite H in L; clear H
         | |- context [skip_ws ?x] =>
             lazymatch goal with
             | _ : String.length (skip_ws x) <= _ |- _ => fail
             | _ => pose proof (skip_ws_length x)
             end
         | H : context [skip_ws ?x] |- _ =>
             lazymatch goal with
             | _ : String.length (skip_ws x) <= _ |- _ => fail
             | _ => pose proof (skip_ws_length x)
             end
         end;
  simpl in *; try lia.

Ltac cases H :=
  repeat match type of H with
         | context [match ?x with _ => _ end] => destruct x eqn:?
         end.

Lemma scan_length fuel :
  (forall s v r, scan_once fuel s = Scanned v r -> String.length r < String.length s) /\
  (forall m s v r, JSONObject fuel m s = Scanned v r -> String.length r < String.length s) /\
  (forall a s v r, JSONArray fuel a s = Scanned v r -> String.length r < String.length s).
Proof.
  induction fuel as [|fuel (IHv & IHo & IHa)]; [by repeat split|].
  repeat split.
  - intros s v r H. simpl in H. cases H; try done.
    + inversion H; subst. measure.
    + inversion H; subst. measure.
    + apply IHo in H. measure.
    + inversion H; subst. measure.
    + apply IHa in H. measure.
    + apply atom_Scanned in H. measure.
  - intros m s v r H. simpl in H. cases H; try done.
    + inversion H; subst.
      match goal with H' : scan_once _ _ = Scanned _ _ |- _ => apply IHv in H' end.
      measure.
    + apply IHo in H.
      match goal with H' : scan_once _ _ = Scanned _ _ |- _ => apply IHv in H' end.
      measure.
  - intros a s v r H. simpl in H. cases H; try done.
    + inversion H; subst.
      match goal with H' : scan_once _ _ = Scanned _ _ |- _ => apply IHv in H' end.
      measure.
    + apply IHa in H.
      match goal with H' : scan_once _ _ = Scanned _ _ |- _ => apply IHv in H' end.
      measure.
Qed.


Lemma scan_fuel fuel :
  (forall s, 2 * String.length s + 1 <= fuel -> scan_once fuel s <> OutOfFuel) /\
  (forall m s, 2 * String.length s + 2 <= fuel -> JSONObject fuel m s <> OutOfFuel) /\
  (forall a s, 2 * String.length s + 2 <= fuel -> JSONArray fuel a s <> OutOfFuel).
Proof.
  induction fuel as [|fuel (IHv & IHo & IHa)]; [repeat split; intros; lia|].
  pose proof (scan_length fuel) as (Lv & Lo & La).
  repeat split.
  - intros s Hf H. simpl in H. cases H; try done.
    + eapply IHo; [|exact H]. measure.
    + eapply IHa; [|exact H]. measure.
    + by match type of H with atom ?o = _ => destruct o as [[]|] end.
  - intros m s Hf H. simpl in H. cases H; try done.
    + eapply IHv; [|eassumption]. measure.
    + match goal with H' : scan_once _ _ = Scanned _ _ |- _ => apply Lv in H' end.
      eapply IHo; [|exact H]. measure.
  - intros a s Hf H. simpl in H. cases H; try done.
    + eapply IHv; [|eassumption]. measure.
    + match goal with H' : scan_once _ _ = Scanned _ _ |- _ => apply Lv in H' end.
      eapply IHa; [|exact H]. measure.
Qed.

(** [fuel_for] is enough: [loads] never fails for lack of fuel. *)
Lemma scan_once_fuel s : scan_once (fuel_for s) s <> OutOfFuel.
Proof. apply scan_fuel. unfold fuel_for. lia. Qed.

(** More fuel than needed does not change the result. *)
Lemma scan_more_fuel fuel :
  forall fuel', fuel <= fuel' ->
  (forall s, scan_once fuel s <> OutOfFuel -> scan_once fuel' s = scan_once fuel s) /\
  (forall m s, JSONObject fuel m s <> OutOfFuel -> JSONObject fuel' m s = JSONObject fuel m s) /\
  (forall a s, JSONArray fuel a s <> OutOfFuel -> JSONArray fuel' a s = JSONArray fuel a s).
Proof.
  induction fuel as [|fuel IH]; intros fuel' Hle; [by repeat split|].
  destruct fuel' as [|fuel']; [lia|].
  destruct (IH fuel' ltac:(lia)) as (IHv & IHo & IHa).
  repeat split.
  - intros s H. simpl in *.
    repeat match goal with
           | |- context [match ?x with _ => _ end] =>
               lazymatch x with
               | context [fuel'] => fail
               | _ => destruct x eqn:?
               end
           end; try done.
    + by apply IHo.
    + by apply IHa.
  - intros m s H. simpl in *.
    destruct (scanstring s) as [[key r]|]; [|done].
    destruct (skip_ws r) as [|c1 r1]; [done|].
    destruct (Ascii.eqb c1 ":"); [|done].
    destruct (scan_once fuel (skip_ws r1)) as [| |v r2] eqn:E; [done| |].
    + rewrite IHv; rewrite E; done.
    + rewrite IHv; rewrite E; [|done].
      destruct (skip_ws r2) as [|c3 r3]; [done|].
      destruct (Ascii.eqb c3 "}"); [done|].
      destruct (Ascii.eqb c3 ","); [|done].
      destruct (skip_ws r3) as [|c4 r4]; [done|].
      destruct (Ascii.eqb c4 Text.DQ); [|done].
      by apply IHo.
  - intros a s H. simpl in *.
    destruct (scan_once fuel s) as [| |v r] eqn:E; [done| |].
    + rewrite IHv; rewrite E; done.
    + rewrite IHv; rewrite E; [|done].
      destruct (skip_ws r) as [|c1 r1]; [done|].
      destruct (Ascii.eqb c1 "]"); [done|].
      destruct (Ascii.eqb c1 ","); [|done].
      by apply IHa.
Qed.

(** [loads] returns [None] only for text that is not one JSON value. *)
Lemma loads_None s :
  loads s = None ->
  forall fuel, fuel_for (skip_ws s) <= fuel ->
  scan_once fuel (skip_ws s) = Malformed \/
  exists v c r r', scan_once fuel (skip_ws s) = Scanned v r /\ skip_ws r = String c r'.
Proof.
  unfold loads. intros H fuel Hf.
  pose proof (scan_once_fuel (skip_ws s)) as Hfuel.
  rewrite (proj1 (scan_more_fuel _ fuel Hf)) by done.
  destruct (scan_once (fuel_for (skip_ws s)) (skip_ws s)) as [| |v r]; [done|by left|].
  right. destruct (skip_ws r) as [|c r'] eqn:E; [done|]. by exists v, c, r, r'.
Qed.

Lemma loads_Some s v :
  loads s = Some v ->
  forall fuel, fuel_for (skip_ws s) <= fuel ->
  exists r, scan_once fuel (skip_ws s) = Scanned v r /\ skip_ws r = "".
Proof.
  unfold loads. intros H fuel Hf.
  pose proof (scan_once_fuel (skip_ws s)) as Hfuel.
  rewrite (proj1 (scan_more_fuel _ fuel Hf)) by done.
  destruct (scan_once (fuel_for (skip_ws s)) (skip_ws s)) as [| |v' r]; [done|done|].
  destruct (skip_ws r) eqn:E; [|done]. exists r. by simplify_eq.
Qed.

(** *** The decoder on sample texts, as the [json] module reads them *)

Example loads_object : loads (Text.q "{'a' : 1 , 'b':[true, null]}")
  = Some (VDict {[ "a" := VInt 1; "b" := VList [VBool true; VNone] ]}).
Proof. vm_compute. reflexivity. Qed.

Example loads_last_key_wins : loads (Text.q "{'a':1,'a':2}") = Some (VDict {[ "a" := VInt 2 ]}).
Proof. vm_compute. reflexivity. Qed.

Example loads_escapes : loads (Text.q "'a\n\u0041\u00e9'")
  = Some (VStr ("a" +:+ Text.LF +:+ "A" +:+ String "195" (String "169" ""))).
Proof. vm_compute. reflexivity. Qed.

Example loads_surrogate_pair : loads (Text.q "'\ud83d\ude00'")
  = Some (VStr (String "240" (String "159" (String "152" (String "128" ""))))).
Proof. vm_compute. reflexivity. Qed.

Example loads_numbers : loads "[-0, 1.50e-3, 1E5, NaN, -Infinity]"
  = Some (VList [VInt 0; VFloat (FDec 150 (-5)); VFloat (FDec 1 5);
                 VFloat FNaN; VFloat (FInf true)]).
Proof. vm_compute. reflexivity. Qed.

Example loads_rejects :
  map loads ["[DONE]"; "[1,]"; "01"; "1.e5"; "-"; "1 2"; Text.q "{'a':1,}"; Text.q "{,}";
             Text.q "'\u12'"; Text.q "'\x'"; "nul"; ""]
  = [None; None; None; None; None; None; None; None; None; None; None; None].
Proof. vm_compute. reflexivity. Qed.

(** The least doubles: [1e-400] and [2e-324] read as zero, [3e-324] does
    not. *)
Example tiny_floats :
  map truthy [VFloat (FDec 1 (-400)); VFloat (FDec 2 (-324)); VFloat (FDec 3 (-324));
              VFloat (FDec 0 5); VInt 0; VStr ""; VList []; VDict ∅; VFloat FNaN]
  = [false; false; true; false; false; false; false; false; true].
Proof. vm_compute. reflexivity. Qed.

(** [utf-8] accepts a two-byte and a four-byte character and rejects an
    overlong form, an encoded surrogate and a cut sequence. *)
Example utf8_samples :
  map Utf8.valid [[x63; xc3; xa9]; [xf0; x9f; x98; x80]; [xc0; x80]; [xed; xa0; x80]; [xe2; x82]]
  = [true; true; false; false; false].
Proof. vm_compute. reflexivity. Qed.

End JsonFacts.

(** ** The streaming decoder and the accumulator *)

Module StreamFacts.
Import Py Effect CLI.

(** *** The [io] monad *)

Lemma io_eta {A} (m : io A) : IO (trace m) (result m) = m.
Proof. by destruct m. Qed.

Lemma bind_ret_l {A B} (a : A) (k : A -> io B) : (mret a ≫= k) = k a.
Proof. unfold mbind, io_bind, mret, io_ret. simpl. apply io_eta. Qed.

Lemma bind_ext {A B} (m : io A) (k k' : A -> io B) :
  (forall a, k a = k' a) -> (m ≫= k) = (m ≫= k').
Proof.
  intros E. unfold mbind, io_bind. destruct (result m); [|done]. by rewrite E.
Qed.

Lemma bind_assoc {A B C} (m : io A) (k : A -> io B) (h : B -> io C) :
  ((m ≫= k) ≫= h) = (m ≫= fun a => k a ≫= h).
Proof.
  unfold mbind, io_bind. destruct m as [tm [a|e]]; simpl; [|done].
  destruct (k a) as [tk [b|e]]; simpl; [|done].
  by rewrite app_assoc.
Qed.

(** A computation that only writes [t]. *)
Lemma bind_write {A B} (t : list event) (a : A) (k : A -> io B) :
  (IO t (Return a) ≫= k) = IO (t ++ trace (k a)) (result (k a)).
Proof. done. Qed.

(** *** The loop *)

#[local] Arguments mbind : simpl never.
#[local] Arguments mret : simpl never.

Lemma iterate_app self v pre post :
  iterate self v (pre ++ post) = (iterate self v pre ≫= fun v' => iterate self v' post).
Proof.
  revert v. induction pre as [|l pre IH]; intros v; simpl.
  - by rewrite bind_ret_l.
  - rewrite bind_assoc. apply bind_ext. intros v'. apply IH.
Qed.

(** A line on which the body of the loop does nothing can be removed. *)
Lemma iterate_skip self l pre post :
  (forall v, iteration self v l = IO [] (Return v)) ->
  forall v, iterate self v (pre ++ l :: post) = iterate self v (pre ++ post).
Proof.
  intros Hl v. rewrite !iterate_app. apply bind_ext. intros v'. simpl.
  rewrite Hl. exact (bind_ret_l v' _).
Qed.

Lemma print_stream_skip self l pre post :
  (forall v, iteration self v l = IO [] (Return v)) ->
  _print_stream self (pre ++ l :: post) = _print_stream self (pre ++ post).
Proof.
  intros Hl. unfold _print_stream. by rewrite iterate_skip.
Qed.

(** The lines that [_parse_stream_line] turns into [None] without a word. *)
Lemma iteration_of_None self v l :
  _parse_stream_line self l = IO [] (Return VNone) -> iteration self v l = IO [] (Return v).
Proof. intros E. unfold iteration. by rewrite E. Qed.


(** *** [_parse_stream_line] on a data line *)

Lemma decoded_blank l text :
  decoded l = Return text -> text <> "" -> blank l = false.
Proof.
  destruct l as [[|b bs]|[|c s]]; simpl; try done.
  - unfold Utf8.decode. simpl. intros [= <-]. done.
  - intros [= <-]. done.
Qed.

Lemma data_prefix p : Text.startswith "data: " ("data: " +:+ p) = true.
Proof. done. Qed.

Lemma data_drop p : Text.drop 6 ("data: " +:+ p) = p.
Proof. done. Qed.

Lemma parse_sentinel self l :
  decoded l = Return "data: [DONE]" ->
  _parse_stream_line self l = IO [] (Return VNone).
Proof.
  intros E. unfold _parse_stream_line.
  rewrite (decoded_blank _ _ E) by done. rewrite E. done.
Qed.

Lemma parse_malformed self l payload :
  decoded l = Return ("data: " +:+ payload) ->
  payload <> "[DONE]" ->
  Json.loads payload = None ->
  _parse_stream_line self l =
    if verbose self
    then match render (console self) (decode_error_data payload) with
         | Some _ =>
             IO [ConsolePrint decode_error None;
                 ConsolePrint (decode_error_data payload) None] (Return VNone)
         | None => IO [ConsolePrint decode_error None] (Raise MarkupError)
         end
    else IO [ConsolePrint decode_error None] (Return VNone).
Proof.
  intros E Hd Hj. unfold _parse_stream_line.
  rewrite (decoded_blank _ _ E) by (simpl; done). rewrite E.
  unfold lift. rewrite bind_write, data_prefix, data_drop. simpl.
  apply String.eqb_neq in Hd. rewrite Hd, Hj. unfold console_print.
  destruct (verbose self); [|done].
  by destruct (render (console self) (decode_error_data payload)).
Qed.

Lemma parse_loaded self l payload json_data :
  decoded l = Return ("data: " +:+ payload) ->
  Json.loads payload = Some json_data ->
  _parse_stream_line self l =
    IO [] (choices ← Py.get json_data "choices" VNone;
           Return (if truthy choices then json_data else VNone)).
Proof.
  intros E Hj. unfold _parse_stream_line.
  rewrite (decoded_blank _ _ E) by (simpl; done). rewrite E.
  unfold lift. rewrite bind_write, data_prefix, data_drop. simpl.
  destruct (String.eqb payload "[DONE]") eqn:Ed.
  { apply String.eqb_eq in Ed. subst. vm_compute in Hj. done. }
  rewrite Hj.
  destruct (Py.get json_data "choices" VNone) as [c|e]; simpl; [|done].
  unfold mbind, outcome_bind. destruct (truthy c); reflexivity.
Qed.


(** *** Text *)

Lemma append_nil_r s : s +:+ "" = s.
Proof. induction s as [|c s IH]; cbv [String.append]; [done|]. fold String.append. by rewrite IH. Qed.

Lemma append_assoc a b c : (a +:+ b) +:+ c = a +:+ b +:+ c.
Proof.
  induction a as [|x a IH]; cbv [String.append]; fold String.append; [done|].
  by rewrite IH.
Qed.

Lemma replace_app old new a b :
  Text.replace old new (a +:+ b) = Text.replace old new a +:+ Text.replace old new b.
Proof.
  induction a as [|x a IH]; cbv [String.append]; fold String.append; [done|].
  simpl. rewrite IH. destruct (Ascii.eqb x old); [|done].
  by rewrite append_assoc.
Qed.

(** [replace] leaves a string without [old] alone and turns each [old]
    into [new]. *)
Lemma replace_absent old new s :
  Text.contains (String old "") s = false -> Text.replace old new s = s.
Proof.
  induction s as [|x s IH]; [done|]. simpl.
  destruct (Ascii.eqb x old); simpl; [done|].
  intros H. by rewrite IH.
Qed.

Lemma replace_each old new a b :
  Text.replace old new (a +:+ String old b) =
  Text.replace old new a +:+ new +:+ Text.replace old new b.
Proof. rewrite replace_app. simpl. by rewrite Ascii.eqb_refl. Qed.


(** *** The accumulator *)

Lemma process_delta_reason delta reason buffer flag :
  get_reasoning_content delta = Return (VStr reason) ->
  process_delta delta buffer flag = Return (_process_reasoning_content reason buffer flag).
Proof. intros E. unfold process_delta. by rewrite E. Qed.

Lemma process_delta_content delta c buffer flag :
  get_reasoning_content delta = Return VNone ->
  Py.get delta "content" (VStr "") = Return c ->
  process_delta delta buffer flag =
    match (if truthy c then c else VStr "") with
    | VStr content => Return (_process_regular_content content buffer flag)
    | _ => Raise TypeError
    end.
Proof. intros E Ec. unfold process_delta. rewrite E. simpl. by rewrite Ec. Qed.

(** C3. From the initial state, a delta with reasoning text followed by a
    delta with answer content gives the quoted reasoning block, a blank
    line and the content, and leaves the flag false. *)
Theorem reasoning_then_content (d1 d2 : value) (reason content : string) :
  get_reasoning_content d1 = Return (VStr reason) ->
  get_reasoning_content d2 = Return VNone ->
  Py.get d2 "content" (VStr "") = Return (VStr content) ->
  ('(buffer, flag) ← process_delta d1 (full_content initial) (in_reasoning initial);
   process_delta d2 buffer flag)
  = Return ("> Reasoning:" +:+ Text.LF +:+ "> "
            +:+ Text.replace "010" (Text.LF +:+ "> ") reason
            +:+ Text.LF +:+ Text.LF
            +:+ content,
            false).
Proof.
  intros E1 E2 Ec.
  rewrite (process_delta_reason _ _ _ _ E1). simpl.
  change (?m ≫= ?k) with (k ("> Reasoning:" +:+ Text.LF +:+ "> "
    +:+ Text.replace "010" (Text.LF +:+ "> ") reason, true)). simpl.
  rewrite (process_delta_content _ _ _ _ E2 Ec).
  assert (Hc : (if truthy (VStr content) then VStr content else VStr "") = VStr content).
  { destruct content; done. }
  rewrite Hc. unfold _process_regular_content, block_end.
  by rewrite !append_assoc.
Qed.


Lemma reasoning_then_content_witness :
  get_reasoning_content Sample.reasoning_delta
    = Return (VStr ("step 1" +:+ Text.LF +:+ "step 2")) /\
  get_reasoning_content Sample.content_delta = Return VNone /\
  Py.get Sample.content_delta "content" (VStr "") = Return (VStr "Answer") /\
  ('(buffer, flag) ← process_delta Sample.reasoning_delta "" false;
   process_delta Sample.content_delta buffer flag)
  = Return ("> Reasoning:" +:+ Text.LF +:+ "> step 1" +:+ Text.LF +:+ "> step 2"
            +:+ Text.LF +:+ Text.LF +:+ "Answer", false).
Proof.
  split; [reflexivity|]. split; [reflexivity|]. split; [reflexivity|].
  apply (reasoning_then_content Sample.reasoning_delta Sample.content_delta
           ("step 1" +:+ Text.LF +:+ "step 2") "Answer"); reflexivity.
Defined.

(** C6, as the code has it. A delta without a reasoning field (none of
    the two keys, or [null] under the first one present) and without answer
    content (no [content], or one that is empty or false) leaves the buffer
    unchanged when [in_reasoning] is false; when it is true the delta ends
    the quoted block: the blank line is appended and the flag cleared.  A
    reasoning field that holds the empty string is reasoning all the same:
    in reasoning mode it leaves buffer and flag as they are, and outside it
    it replaces the buffer by the header and sets the flag. *)
Theorem empty_delta_effect (delta c : value) (buffer : string) (flag : bool) :
  (get_reasoning_content delta = Return VNone ->
   Py.get delta "content" (VStr "") = Return c ->
   truthy c = false ->
   process_delta delta buffer flag
   = Return (if flag then buffer +:+ Text.LF +:+ Text.LF else buffer, false)) /\
  (get_reasoning_content delta = Return (VStr "") ->
   process_delta delta buffer flag
   = Return (if flag then buffer else "> Reasoning:" +:+ Text.LF +:+ "> ", true)).
Proof.
  split.
  - intros E Ec Hc. rewrite (process_delta_content _ _ _ _ E Ec), Hc.
    unfold _process_regular_content, block_end.
    destruct flag; by rewrite append_nil_r.
  - intros E. rewrite (process_delta_reason _ _ _ _ E).
    unfold _process_reasoning_content, quote_lines. cbn [Text.replace].
    destruct flag; cbn [negb]; by rewrite append_nil_r.
Qed.

Lemma empty_delta_effect_witness :
  get_reasoning_content Sample.empty_delta = Return VNone /\
  Py.get Sample.empty_delta "content" (VStr "") = Return (VStr "") /\
  truthy (VStr "") = false /\
  process_delta Sample.empty_delta "Hello" false = Return ("Hello", false) /\
  get_reasoning_content (VDict {[ "reasoning_content" := VStr ""; "content" := VStr "" ]})
  = Return (VStr "") /\
  process_delta (VDict {[ "reasoning_content" := VStr ""; "content" := VStr "" ]})
                "Hello" false
  = Return ("> Reasoning:" +:+ Text.LF +:+ "> ", true).
Proof.
  split; [reflexivity|]. split; [reflexivity|]. split; [reflexivity|]. split.
  - apply (proj1 (empty_delta_effect Sample.empty_delta (VStr "") "Hello" false));
      reflexivity.
  - split; [reflexivity|].
    apply (proj2 (empty_delta_effect
                    (VDict {[ "reasoning_content" := VStr ""; "content" := VStr "" ]})
                    VNone "Hello" false)).
    reflexivity.
Defined.

(** C6 as stated fails in reasoning mode: the buffer grows by a blank
    line. *)
Lemma empty_delta_changes_buffer :
  process_delta Sample.empty_delta ("> Reasoning:" +:+ Text.LF +:+ "> thinking") true
  = Return ("> Reasoning:" +:+ Text.LF +:+ "> thinking" +:+ Text.LF +:+ Text.LF, false)
  /\ "> Reasoning:" +:+ Text.LF +:+ "> thinking" +:+ Text.LF +:+ Text.LF
     <> "> Reasoning:" +:+ Text.LF +:+ "> thinking".
Proof. split; [reflexivity | discriminate]. Qed.

(** C7. Outside reasoning mode a delta with reasoning text replaces the
    whole buffer by the header and the quoted text: what had been
    accumulated is discarded. *)
Theorem reasoning_resets_buffer (delta : value) (reason buffer : string) :
  buffer <> "" ->
  get_reasoning_content delta = Return (VStr reason) ->
  process_delta delta buffer false
  = Return ("> Reasoning:" +:+ Text.LF +:+ "> "
            +:+ Text.replace "010" (Text.LF +:+ "> ") reason, true).
Proof. intros _ E. by rewrite (process_delta_reason _ _ _ _ E). Qed.

Lemma reasoning_resets_buffer_witness :
  "Hello" <> "" /\
  get_reasoning_content Sample.reasoning_delta
    = Return (VStr ("step 1" +:+ Text.LF +:+ "step 2")) /\
  process_delta Sample.reasoning_delta "Hello" false
  = Return ("> Reasoning:" +:+ Text.LF +:+ "> step 1" +:+ Text.LF +:+ "> step 2", true).
Proof.
  split; [discriminate|]. split; [reflexivity|].
  apply (reasoning_resets_buffer Sample.reasoning_delta
           ("step 1" +:+ Text.LF +:+ "step 2") "Hello"); [discriminate | reflexivity].
Defined.

(** C8. On a [dict], [get_reasoning_content] returns the value under
    [reasoning_content] when that key is present, else the value under
    [reasoning] when that key is present, else [None]; with neither key
    the delta goes to [_process_regular_content]. *)
Theorem reasoning_field_order (d : gmap string value) (buffer : string) (flag : bool) :
  get_reasoning_content (VDict d)
  = Return (match d !! "reasoning_content", d !! "reasoning" with
            | Some v, _ => v
            | None, Some v => v
            | None, None => VNone
            end)
  /\ (d !! "reasoning_content" = None -> d !! "reasoning" = None ->
      process_delta (VDict d) buffer flag
      = match (let c := default (VStr "") (d !! "content") in
               if truthy c then c else VStr "") with
        | VStr content => Return (_process_regular_content content buffer flag)
        | _ => Raise TypeError
        end).
Proof.
  unfold process_delta, get_reasoning_content, first_present. simpl.
  unfold mbind, outcome_bind.
  destruct (d !! "reasoning_content") as [v|] eqn:E1.
  { rewrite bool_decide_eq_true_2 by eauto. done. }
  rewrite bool_decide_eq_false_2 by (intros [? ?]; done).
  destruct (d !! "reasoning") as [v|] eqn:E2.
  { rewrite bool_decide_eq_true_2 by eauto. done. }
  rewrite bool_decide_eq_false_2 by (intros [? ?]; done).
  split; [done|]. intros _ _. by destruct (d !! "content").
Qed.

Lemma reasoning_field_order_witness :
  ({[ "content" := VStr "Answer" ]} : gmap string value) !! "reasoning_content" = None /\
  ({[ "content" := VStr "Answer" ]} : gmap string value) !! "reasoning" = None /\
  get_reasoning_content Sample.content_delta = Return VNone /\
  process_delta Sample.content_delta "Hello" false = Return ("HelloAnswer", false).
Proof.
  split; [reflexivity|]. split; [reflexivity|].
  split.
  - exact (proj1 (reasoning_field_order {[ "content" := VStr "Answer" ]} "Hello" false)).
  - exact (proj2 (reasoning_field_order {[ "content" := VStr "Answer" ]} "Hello" false)
             eq_refl eq_refl).
Defined.

(** C9. In reasoning mode a further delta with reasoning text appends the
    text, each line feed followed by the quote prefix, without the header,
    and the flag stays true. *)
Theorem reasoning_continues (delta : value) (reason buffer : string) :
  get_reasoning_content delta = Return (VStr reason) ->
  process_delta delta buffer true
  = Return (buffer +:+ Text.replace "010" (Text.LF +:+ "> ") reason, true).
Proof. intros E. by rewrite (process_delta_reason _ _ _ _ E). Qed.

Lemma reasoning_continues_witness :
  get_reasoning_content Sample.reasoning_delta
    = Return (VStr ("step 1" +:+ Text.LF +:+ "step 2")) /\
  process_delta Sample.reasoning_delta ("> Reasoning:" +:+ Text.LF +:+ "> step 0") true
  = Return ("> Reasoning:" +:+ Text.LF +:+ "> step 0step 1" +:+ Text.LF +:+ "> step 2", true).
Proof.
  split; [reflexivity|].
  apply (reasoning_continues Sample.reasoning_delta
           ("step 1" +:+ Text.LF +:+ "step 2")
           ("> Reasoning:" +:+ Text.LF +:+ "> step 0")); reflexivity.
Defined.


(** *** The decoder *)

(** C1. The three lines of the decoding example accumulate to
    [Hello World], given as text or as bytes, whatever the verbosity and
    the configured code theme. *)
Theorem hello_world_stream (self : CLI.t) (theme : string) :
  config self !! "CODE_THEME" = Some theme ->
  let run := IO [ConsolePrint "Assistant:" (Some "bold green");
                 LiveUpdate "Hello_" theme; Sleep;
                 LiveUpdate "Hello World " theme; Sleep;
                 LiveUpdate "Hello World" theme]
                (Return "Hello World") in
  _print_stream self (Str <$> Sample.hello_world) = run /\
  _print_stream self (Bytes <$> (Text.to_bytes <$> Sample.hello_world)) = run.
Proof.
  intros Ht run.
  assert (Hc : config_item self "CODE_THEME" = Return theme).
  { unfold config_item. by rewrite Ht. }
  unfold _print_stream, iterate, iteration, fmap, list_fmap, Sample.hello_world.
  remember (config_item self "CODE_THEME") as item eqn:Hi.
  rewrite Hc. clear Hi Hc Ht item.
  destruct self as [verbose config].
  split; vm_compute; reflexivity.
Qed.

Lemma hello_world_stream_witness :
  config Sample.quiet !! "CODE_THEME" = Some "monokia" /\
  result (_print_stream Sample.quiet (Str <$> Sample.hello_world)) = Return "Hello World".
Proof.
  split; [reflexivity|].
  exact (f_equal result (proj1 (hello_world_stream Sample.quiet "monokia" eq_refl))).
Defined.

(** The stream of [test_streaming_response], bytes with a space after each
    colon, decodes to the same text. *)
Example test_streaming_response :
  result (_print_stream Sample.quiet
            (Bytes <$> (Text.to_bytes <$>
               [Text.q "data: {'choices': [{'delta': {'content': 'Hello'}}]}";
                Text.q "data: {'choices': [{'delta': {'content': ' World'}}]}";
                "data: [DONE]"])))
  = Return "Hello World".
Proof. vm_compute. reflexivity. Qed.

(** C2 as stated fails: decoding does not stop at the sentinel; a data
    line that follows it is decoded and reaches the buffer. *)
Lemma lines_after_sentinel_are_decoded :
  _print_stream Sample.quiet [Str Sample.done; Str Sample.hello]
  = IO [ConsolePrint "Assistant:" (Some "bold green");
        LiveUpdate "Hello_" "monokia"; Sleep;
        LiveUpdate "Hello" "monokia"]
       (Return "Hello").
Proof. vm_compute. reflexivity. Qed.

(** C2, as the code has it. The sentinel line gives no event, raises
    nothing and leaves the variables of the loop as they are; the loop goes
    on with the next line, so that the stream decodes as it does without
    the sentinel line. *)
Theorem sentinel_is_skipped (self : CLI.t) (l : line) (pre post : list line) :
  decoded l = Return "data: [DONE]" ->
  (forall v, iteration self v l = IO [] (Return v)) /\
  _print_stream self (pre ++ l :: post) = _print_stream self (pre ++ post).
Proof.
  intros E.
  assert (H : forall v, iteration self v l = IO [] (Return v)).
  { intros v. apply iteration_of_None. by apply parse_sentinel. }
  split; [exact H|]. by apply print_stream_skip.
Qed.

Lemma sentinel_is_skipped_witness :
  decoded (Bytes (Text.to_bytes Sample.done)) = Return "data: [DONE]" /\
  _print_stream Sample.quiet
    ([Str Sample.hello] ++ Bytes (Text.to_bytes Sample.done) :: [Str Sample.world])
  = _print_stream Sample.quiet ([Str Sample.hello] ++ [Str Sample.world]).
Proof.
  split; [reflexivity|].
  apply (sentinel_is_skipped Sample.quiet (Bytes (Text.to_bytes Sample.done))
           [Str Sample.hello] [Str Sample.world]).
  reflexivity.
Defined.




(** With [verbose] set, a payload that the console does not render ends the
    stream: the [MarkupError] of the second message is raised in the handler
    of the decoding error and is not caught. *)
Lemma malformed_line_markup_error
  (self : CLI.t) (l : line) (payload : string) (v : vars) (rest : list line) :
  decoded l = Return ("data: " +:+ payload) ->
  payload <> "[DONE]" ->
  Json.loads payload = None ->
  verbose self = true ->
  render (console self) ("[red]Error JSON data: " +:+ payload +:+ "[/red]") = None ->
  iterate self v (l :: rest)
  = IO [ConsolePrint "[red]Error decoding response JSON[/red]" None] (Raise MarkupError).
Proof.
  intros E Hd Hj Hv Hr. simpl. unfold iteration.
  rewrite (parse_malformed _ _ _ E Hd Hj), Hv. unfold decode_error_data. by rewrite Hr.
Qed.

(** C5 as stated fails: when the first choice has no [delta] the lookup
    raises [KeyError], which ends [_print_stream]; the lines that follow
    are not decoded. *)
Lemma missing_delta_raises :
  Json.loads (Text.drop 6 Sample.no_delta) = Some (VDict {[ "choices" := VList [VDict ∅] ]}) /\
  _print_stream Sample.quiet [Str Sample.no_delta; Str Sample.hello]
  = IO [ConsolePrint "Assistant:" (Some "bold green")] (Raise KeyError).
Proof. split; vm_compute; reflexivity. Qed.

(** C5, as the code has it. A data line whose payload is a JSON object
    without [choices], or with a [choices] that is empty or otherwise
    false, gives no event, raises nothing and leaves the variables of the
    loop as they are; the loop goes on with the next line. *)
Theorem no_choices_skipped
  (self : CLI.t) (l : line) (payload : string) (d : gmap string value)
  (pre post : list line) :
  decoded l = Return ("data: " +:+ payload) ->
  Json.loads payload = Some (VDict d) ->
  truthy (default VNone (d !! "choices")) = false ->
  (forall v, iteration self v l = IO [] (Return v)) /\
  _print_stream self (pre ++ l :: post) = _print_stream self (pre ++ post).
Proof.
  intros E Hj Hc.
  assert (H : forall v, iteration self v l = IO [] (Return v)).
  { intros v. apply iteration_of_None.
    rewrite (parse_loaded _ _ _ _ E Hj). simpl.
    unfold mbind, outcome_bind.
    change (match d !! "choices" with Some x => x | None => VNone end)
      with (default VNone (d !! "choices")).
    by rewrite Hc. }
  split; [exact H|]. by apply print_stream_skip.
Qed.

Lemma no_choices_skipped_witness :
  decoded (Str Sample.no_choices) = Return ("data: " +:+ Text.q "{'id':'x','choices':[]}") /\
  Json.loads (Text.q "{'id':'x','choices':[]}")
    = Some (VDict {[ "id" := VStr "x"; "choices" := VList [] ]}) /\
  truthy (default VNone
            (({[ "id" := VStr "x"; "choices" := VList [] ]} : gmap string value)
               !! "choices")) = false /\
  _print_stream Sample.quiet ([Str Sample.hello] ++ Str Sample.no_choices :: [Str Sample.world])
  = _print_stream Sample.quiet ([Str Sample.hello] ++ [Str Sample.world]).
Proof.
  split; [reflexivity|]. split; [vm_compute; reflexivity|].
  split; [reflexivity|].
  apply (no_choices_skipped Sample.quiet (Str Sample.no_choices)
           (Text.q "{'id':'x','choices':[]}")
           {[ "id" := VStr "x"; "choices" := VList [] ]}
           [Str Sample.hello] [Str Sample.world]);
    [reflexivity | vm_compute; reflexivity | reflexivity].
Defined.

End StreamFacts.

(** ** The chat-session store *)

Module StoreFacts.
Import ChatStore.
Import StreamFacts.

#[local] Open Scope nat_scope.

(** *** FilenameCodec *)

Lemma unslug_slug t : Text.contains "_" t = false -> unslug (slug t) = t.
Proof.
  unfold unslug, slug.
  induction t as [|x t IH]; [done|]. simpl.
  destruct (Ascii.eqb x "_") eqn:E'; simpl; [done|].
  intros H. specialize (IH H).
  destruct (Ascii.eqb x " ") eqn:E.
  - apply Ascii.eqb_eq in E. subst x.
    change ("_" +:+ ?r) with (String "_" r). simpl.
    change (" " +:+ ?r) with (String " " r). by rewrite IH.
  - simpl. by rewrite E', IH.
Qed.

Lemma length_append a b : String.length (a +:+ b) = String.length a + String.length b.
Proof.
  induction a as [|x a IH]; cbv [String.append]; fold String.append; [done|].
  simpl. by rewrite IH.
Qed.

Lemma strip_extension_append s : strip_extension (s +:+ extension) = Some s.
Proof.
  induction s as [|x s IH]; [done|].
  cbv [String.append]; fold String.append.
  unfold strip_extension; fold strip_extension.
  destruct (String.eqb (String x (s +:+ extension)) extension) eqn:E.
  - apply String.eqb_eq in E. apply (f_equal String.length) in E.
    simpl in E. rewrite length_append in E. simpl in E. lia.
  - by rewrite IH.
Qed.

Lemma stem_append s : stem (s +:+ extension) = s.
Proof. unfold stem. by rewrite strip_extension_append. Qed.

Lemma all_append p a b : Text.all p (a +:+ b) = Text.all p a && Text.all p b.
Proof.
  induction a as [|x a IH]; cbv [String.append]; fold String.append; [done|].
  simpl. by rewrite IH, andb_assoc.
Qed.

Lemma digit_char_digit d : Json.digit (digit_char d) = true.
Proof.
  unfold digit_char.
  assert (H : d mod 10 < 10) by (apply Nat.mod_upper_bound; lia).
  destruct (d mod 10) as [|[|[|[|[|[|[|[|[|[|n]]]]]]]]]]; try reflexivity; lia.
Qed.

Lemma two_stamp_char n : Text.all stamp_char (two n) = true.
Proof. unfold two, stamp_char. cbn [Text.all]. by rewrite !digit_char_digit. Qed.

Lemma stamp_stamp_char t : Text.all stamp_char (stamp t) = true.
Proof.
  unfold stamp, four. rewrite !all_append, !two_stamp_char. done.
Qed.

(** The first [-title-] of a name that starts with a time part is the
    one right after it. *)
Lemma partition_stamp a b :
  Text.all stamp_char a = true ->
  partition separator (a +:+ separator +:+ b) = Some (a, b).
Proof.
  induction a as [|x a IH]; [done|].
  cbv [String.append]; fold String.append. simpl Text.all.
  intros [Hx Ha]%andb_prop. specialize (IH Ha). unfold stamp_char in *.
  unfold partition; fold partition. rewrite IH.
  assert (Text.startswith separator (String x (a +:+ separator +:+ b)) = false) as ->; [|done].
  simpl. destruct (Ascii.eqb x "-") eqn:E; [|done]. simpl.
  destruct a as [|y a]; [done|].
  cbv [String.append]; fold String.append.
  simpl in Ha. apply andb_prop in Ha as [Hy _].
  destruct (Ascii.eqb y "t") eqn:Et; [|done].
  apply Ascii.eqb_eq in Et. subst y. done.
Qed.

Lemma title_of_encode t now :
  Text.contains "_" t = false -> title_of (encode t now) = t.
Proof.
  intros H. unfold title_of, decode, encode.
  rewrite <- !append_assoc, stem_append, append_assoc.
  rewrite partition_stamp by apply stamp_stamp_char.
  simpl. by apply unslug_slug.
Qed.


(** The file names of [test_parse_filename] and the titles of
    [test_make_chat_title]. *)
Example test_parse_filename :
  decode "20230401-120000-title-Test_Chat.json" 1
    = ChatInfo 1 "Test Chat" "2023-04-01 12:00" /\
  decode "20230401-120000-title-Test_Chat_With-Dashes.json" 2
    = ChatInfo 2 "Test Chat With-Dashes" "2023-04-01 12:00" /\
  decode "irregular_filename.json" 3 = ChatInfo 3 "irregular filename" "".
Proof. repeat split; vm_compute; reflexivity. Qed.

Example test_make_chat_title :
  make_chat_title (Some "This is a test prompt") Sample.noon = "This_is_a_test_prompt" /\
  make_chat_title None Sample.noon = "Chat-1680350400" /\
  encode "Test Chat" Sample.noon = "20230401-120000-title-Test_Chat.json".
Proof. repeat split; vm_compute; reflexivity. Qed.

(** *** Eviction *)





(** *** Listing and lookup *)





(** *** Save, then load *)


(** [test_save_chat_empty_history], [test_save_chat_overwrite_existing] and
    [test_max_saved_chats] on the model. *)
Example test_save_chat_empty_history :
  save_chat Sample.empty_store Sample.noon [] (Some "Test Chat") = ("", Sample.empty_store).
Proof. reflexivity. Qed.

Example test_save_chat_overwrite_existing :
  let later := Timestamp 2023 4 1 12 0 1 1680350401 in
  let st1 := (save_chat Sample.empty_store Sample.noon [Message "user" "First chat"]
                (Some "Same Title")).2 in
  let st2 := (save_chat st1 later [Message "user" "Second chat"] (Some "Same Title")).2 in
  (load_chat_by_title st2 "Same Title").1
    = Some (Chat "Same Title" [Message "user" "Second chat"]) /\
  length (list_chats st2).1 = 1.
Proof. split; vm_compute; reflexivity. Qed.

Example test_max_saved_chats :
  let at_second s := Timestamp 2023 4 1 12 0 s (1680350400 + N.of_nat s) in
  let st0 := Store ∅ 2 None in
  let st1 := (save_chat st0 (at_second 0) [Message "user" "Chat 1"] (Some "Title 1")).2 in
  let st2 := (save_chat st1 (at_second 1) [Message "user" "Chat 2"] (Some "Title 2")).2 in
  let st3 := (save_chat st2 (at_second 2) [Message "user" "Chat 3"] (Some "Title 3")).2 in
  title <$> (list_chats st3).1 = ["Title 3"; "Title 2"].
Proof. vm_compute. reflexivity. Qed.



End StoreFacts.

(** ** More on the streaming decoder *)

Module StreamMore.
Import Py Effect CLI Markdown StreamFacts.

#[local] Arguments mbind : simpl never.
#[local] Arguments mret : simpl never.

(** *** Lines that are no data lines *)

Lemma parse_no_data self l text :
  decoded l = Return text -> Text.startswith "data: " text = false ->
  _parse_stream_line self l = IO [] (Return VNone).
Proof.
  intros E Hp. unfold _parse_stream_line.
  destruct (blank l); [done|]. rewrite E. unfold lift. rewrite bind_write, Hp. done.
Qed.

(** X1. An empty line, and a line that does not start with [data: ] (an
    event name, a comment, a keep-alive), is skipped without a word: no
    event, no exception, the variables of the loop unchanged, and the
    stream decodes as it does without the line. *)
Theorem other_lines_skipped (self : CLI.t) (l : line) (pre post : list line) :
  blank l = true \/
  (exists text, decoded l = Return text /\ Text.startswith "data: " text = false) ->
  (forall v, iteration self v l = IO [] (Return v)) /\
  _print_stream self (pre ++ l :: post) = _print_stream self (pre ++ post).
Proof.
  intros H.
  assert (Hl : forall v, iteration self v l = IO [] (Return v)).
  { intros v. apply iteration_of_None.
    destruct H as [Hb|(text & E & Hp)].
    - unfold _parse_stream_line. by rewrite Hb.
    - by apply (parse_no_data _ _ text). }
  split; [exact Hl|]. by apply print_stream_skip.
Qed.

Lemma other_lines_skipped_witness :
  (exists text, decoded (Str ": keep-alive") = Return text /\
                Text.startswith "data: " text = false) /\
  _print_stream Sample.quiet ([Str Sample.hello] ++ Str ": keep-alive" :: [Str Sample.world])
  = _print_stream Sample.quiet ([Str Sample.hello] ++ [Str Sample.world]).
Proof.
  split; [by exists ": keep-alive"|].
  apply (other_lines_skipped Sample.quiet (Str ": keep-alive")
           [Str Sample.hello] [Str Sample.world]).
  right. by exists ": keep-alive".
Defined.

(** X2. A non-empty [bytes] line that is not well-formed UTF-8 raises
    [UnicodeDecodeError] before anything is printed; the exception leaves
    the loop, and the lines after it are not read. *)
Theorem undecodable_line_raises
  (self : CLI.t) (b : list byte) (v : vars) (rest : list line) :
  b <> [] -> Utf8.valid b = false ->
  _parse_stream_line self (Bytes b) = IO [] (Raise UnicodeDecodeError) /\
  iterate self v (Bytes b :: rest) = IO [] (Raise UnicodeDecodeError).
Proof.
  intros Hb Hv.
  assert (H : _parse_stream_line self (Bytes b) = IO [] (Raise UnicodeDecodeError)).
  { unfold _parse_stream_line. destruct b; [done|]. simpl.
    unfold Utf8.decode. by rewrite Hv. }
  split; [exact H|]. simpl. unfold iteration. by rewrite H.
Qed.

Lemma undecodable_line_raises_witness :
  [xff; x0a] <> [] /\ Utf8.valid [xff; x0a] = false /\
  iterate Sample.quiet initial [Bytes [xff; x0a]; Str Sample.hello]
  = IO [] (Raise UnicodeDecodeError).
Proof.
  split; [discriminate|]. split; [reflexivity|].
  apply (undecodable_line_raises Sample.quiet [xff; x0a] initial [Str Sample.hello]);
    [discriminate | reflexivity].
Defined.

(** X3. A payload that is JSON but not an object (a list, a number, a
    string, [null]) makes [json_data.get] raise [AttributeError], which the
    handler for [JSONDecodeError] does not catch: nothing is printed and the
    exception leaves [_parse_stream_line] and the loop. *)
Theorem non_object_payload_raises
  (self : CLI.t) (l : line) (payload : string) (json_data : value)
  (v : vars) (rest : list line) :
  decoded l = Return ("data: " +:+ payload) ->
  Json.loads payload = Some json_data ->
  (forall d, json_data <> VDict d) ->
  _parse_stream_line self l = IO [] (Raise AttributeError) /\
  iterate self v (l :: rest) = IO [] (Raise AttributeError).
Proof.
  intros E Hj Hd.
  assert (H : _parse_stream_line self l = IO [] (Raise AttributeError)).
  { rewrite (parse_loaded _ _ _ _ E Hj).
    destruct json_data; try done. by destruct (Hd d). }
  split; [exact H|]. simpl. unfold iteration. by rewrite H.
Qed.

Lemma non_object_payload_raises_witness :
  decoded (Str "data: [1, 2]") = Return ("data: " +:+ "[1, 2]") /\
  Json.loads "[1, 2]" = Some (VList [VInt 1; VInt 2]) /\
  (forall d, VList [VInt 1; VInt 2] <> VDict d) /\
  iterate Sample.quiet initial [Str "data: [1, 2]"; Str Sample.hello]
  = IO [] (Raise AttributeError).
Proof.
  split; [reflexivity|]. split; [vm_compute; reflexivity|]. split; [discriminate|].
  apply (non_object_payload_raises Sample.quiet (Str "data: [1, 2]") "[1, 2]"
           (VList [VInt 1; VInt 2]) initial [Str Sample.hello]);
    [reflexivity | vm_compute; reflexivity | discriminate].
Defined.


(** *** What [_parse_stream_line] hands to the loop *)

Lemma parse_returns self l t v :
  _parse_stream_line self l = IO t (Return v) ->
  v = VNone \/ exists d c, v = VDict d /\ d !! "choices" = Some c /\ truthy c = true.
Proof.
  unfold _parse_stream_line, lift, emit, mbind, io_bind, mret, io_ret. cbn [trace result].
  destruct (blank l); [intros ?; simplify_eq; by left|].
  destruct (decoded l) as [text|e]; [|done].
  destruct (Text.startswith "data: " text); cbn [negb]; [|intros ?; simplify_eq; by left].
  cbn [trace result].
  destruct (String.eqb (Text.drop 6 text) "[DONE]"); [intros ?; simplify_eq; by left|].
  destruct (Json.loads (Text.drop 6 text)) as [json_data|].
  - destruct json_data; try done. cbn [Py.get trace result].
    destruct (d !! "choices") as [c|] eqn:Ec.
    + destruct (truthy c) eqn:Hc; cbn; intros ?; simplify_eq; [right|by left].
      by exists d, c.
    + cbn. intros ?; simplify_eq. by left.
  - unfold console_print, lift, emit.
    destruct (verbose self); [destruct (render (console self) _)|];
      cbn; intros ?; simplify_eq; by left.
Qed.

(** X4. Whatever the line, a value returned by [_parse_stream_line] is
    [None] or a [dict] whose [choices] is present and true, so that the
    loop's [json_data["choices"]] never fails and [[0]] has something to
    take. *)
Theorem parsed_line_has_choices (self : CLI.t) (l : line) (t : list event) (v : value) :
  _parse_stream_line self l = IO t (Return v) ->
  v = VNone \/ exists d c, v = VDict d /\ d !! "choices" = Some c /\ truthy c = true.
Proof.
  apply parse_returns.
Qed.

Lemma parsed_line_has_choices_witness :
  _parse_stream_line Sample.quiet (Str Sample.hello)
  = IO [] (Return (VDict {[ "choices" :=
             VList [VDict {[ "delta" := VDict {[ "content" := VStr "Hello" ]} ]}] ]})) /\
  (VDict {[ "choices" :=
             VList [VDict {[ "delta" := VDict {[ "content" := VStr "Hello" ]} ]}] ]} = VNone \/
   exists d c,
     VDict {[ "choices" :=
             VList [VDict {[ "delta" := VDict {[ "content" := VStr "Hello" ]} ]}] ]} = VDict d /\
     d !! "choices" = Some c /\ truthy c = true).
Proof.
  split; [vm_compute; reflexivity|].
  apply (parsed_line_has_choices Sample.quiet (Str Sample.hello) []).
  vm_compute. reflexivity.
Defined.

(** *** Exceptions that cannot happen *)

Lemma parse_raises self l t e :
  _parse_stream_line self l = IO t (Raise e) ->
  e = UnicodeDecodeError \/ e = AttributeError \/ e = MarkupError.
Proof.
  unfold _parse_stream_line, console_print, lift, emit, mbind, io_bind, mret, io_ret.
  cbn [trace result].
  destruct (blank l); [done|].
  destruct (decoded l) as [text|e'] eqn:E; cbn [trace result].
  2:{ intros ?; simplify_eq. left.
      destruct l as [b|s]; [|done]. cbn [decoded] in E. unfold Utf8.decode in E.
      by destruct (Utf8.valid b); simplify_eq. }
  destruct (Text.startswith "data: " text); cbn [negb trace result]; [|done].
  destruct (String.eqb _ "[DONE]"); [done|].
  destruct (Json.loads _) as [json_data|].
  - destruct json_data; cbn; try (intros ?; simplify_eq; right; by left).
    by destruct (truthy _).
  - destruct (verbose self); [|done].
    destruct (render (console self) _); cbn [trace result]; [done|].
    intros ?; simplify_eq. right. by right.
Qed.

Lemma delta_of_not_IndexError d c :
  d !! "choices" = Some c -> truthy c = true -> delta_of (VDict d) <> Raise IndexError.
Proof.
  intros Ec Hc. unfold delta_of. simpl. rewrite Ec. simpl.
  destruct c as [| | | |s|l|d']; simpl in *; try done.
  - destruct s as [|a s]; [done|]. simpl.
    unfold mbind, outcome_bind. done.
  - destruct l as [|x l]; [done|]. unfold mbind, outcome_bind.
    destruct x as [| | | | | |dx]; simpl; try done. by destruct (dx !! "delta").
Qed.

Lemma first_present_not_IndexError keys delta :
  first_present keys delta <> Raise IndexError.
Proof.
  induction keys as [|k keys IH]; [done|]. simpl.
  destruct (Py.contains k delta) as [[]|e] eqn:E; simpl.
  - unfold mbind, outcome_bind.
    destruct delta; simpl in *; try done. by destruct (d !! k).
  - exact IH.
  - unfold mbind, outcome_bind. destruct delta; simpl in *; by simplify_eq.
Qed.

Lemma process_delta_not_IndexError delta b f :
  process_delta delta b f <> Raise IndexError.
Proof.
  unfold process_delta, get_reasoning_content.
  pose proof (first_present_not_IndexError ["reasoning_content"; "reasoning"] delta) as H.
  unfold mbind, outcome_bind.
  destruct (first_present _ delta) as [r|e]; simpl; [|congruence].
  destruct r; try done.
  destruct delta; simpl; try done.
  by destruct (if truthy _ then _ else _).
Qed.

Lemma iteration_cursor self v l :
  (cursor_index v < 2)%nat ->
  result (iteration self v l) <> Raise IndexError /\
  forall v', result (iteration self v l) = Return v' -> (cursor_index v' < 2)%nat.
Proof.
  intros Hv. unfold iteration.
  destruct (_parse_stream_line self l) as [t [json_data|e]] eqn:E.
  2:{ apply parse_raises in E as [->|[->| ->]]; split; done. }
  rewrite bind_write.
  apply parse_returns in E as [->|(d & c & -> & Ec & Hc)].
  { simpl. split; [done|]. by intros v' [= <-]. }
  assert (truthy (VDict d) = true) as ->.
  { simpl. destruct (size d) eqn:Es; [|done].
    apply map_size_empty_iff in Es. subst d. by rewrite lookup_empty in Ec. }
  cbn [negb].
  pose proof (delta_of_not_IndexError d c Ec Hc) as Hd.
  destruct (delta_of (VDict d)) as [delta|e]; unfold lift;
    [rewrite bind_write | simpl; split; [congruence | done]].
  pose proof (process_delta_not_IndexError delta (full_content v) (in_reasoning v)) as Hp.
  destruct (process_delta delta (full_content v) (in_reasoning v)) as [[b f]|e];
    [rewrite bind_write | simpl; split; [congruence | done]].
  destruct (cursor_chars !! cursor_index v) as [cursor|] eqn:Ecur.
  2:{ destruct v as [? ? [|[|n]]]; simpl in *; try done. lia. }
  rewrite bind_write.
  destruct (config_item self "CODE_THEME") as [theme|e] eqn:Et;
    [rewrite bind_write | simpl; split; [|done]].
  - unfold mbind, io_bind, emit, mret, io_ret. cbn [trace result].
    split; [done|]. intros v' [= <-].
    exact (Nat.mod_upper_bound (cursor_index v + 1) 2 ltac:(lia)).
  - unfold config_item in Et. destruct (config self !! "CODE_THEME"); by simplify_eq.
Qed.

Lemma iterate_cursor self lines :
  forall v, (cursor_index v < 2)%nat -> result (iterate self v lines) <> Raise IndexError.
Proof.
  induction lines as [|l lines IH]; intros v Hv; [done|]. simpl.
  destruct (iteration_cursor self v l Hv) as [Hi Hn].
  unfold mbind, io_bind.
  destruct (result (iteration self v l)) as [v'|e]; simpl; [|congruence].
  apply IH. by apply Hn.
Qed.

(** X5. [_print_stream] never raises [IndexError]: [choices[0]] is only
    evaluated on a [choices] that is true, hence not empty, and the cursor
    index stays within the two cursor characters. *)
Theorem print_stream_no_IndexError (self : CLI.t) (lines : list line) :
  result (_print_stream self lines) <> Raise IndexError.
Proof.
  pose proof (iterate_cursor self lines initial ltac:(simpl; lia)) as H.
  unfold _print_stream, emit, lift, mbind, io_bind, mret, io_ret. cbn [trace result].
  destruct (result (iterate self initial lines)) as [v|e]; cbn [trace result]; [|congruence].
  unfold config_item. by destruct (config self !! "CODE_THEME").
Qed.

(** *** The display *)

Lemma print_stream_frame_parts self lines text :
  result (_print_stream self lines) = Return text ->
  exists theme mid,
    config self !! "CODE_THEME" = Some theme /\
    trace (_print_stream self lines)
    = ConsolePrint "Assistant:" (Some "bold green") :: mid ++ [LiveUpdate text theme].
Proof.
  unfold _print_stream, emit, lift, mbind, io_bind, mret, io_ret. cbn [trace result].
  destruct (iterate self initial lines) as [t [v|e]]; cbn [trace result]; [|done].
  unfold config_item.
  destruct (config self !! "CODE_THEME") as [theme|]; cbn [trace result]; [|done].
  intros [= <-]. exists theme, t. split; [done|].
  done.
Qed.

(** X6. When [_print_stream] returns, its first call is the green
    [Assistant:] line and its last call is a repaint that shows exactly the
    returned text, without a cursor, in the configured theme. *)
Theorem print_stream_frame (self : CLI.t) (lines : list line) (text : string) :
  result (_print_stream self lines) = Return text ->
  exists theme mid,
    config self !! "CODE_THEME" = Some theme /\
    trace (_print_stream self lines)
    = ConsolePrint "Assistant:" (Some "bold green") :: mid ++ [LiveUpdate text theme].
Proof.
  apply print_stream_frame_parts.
Qed.

Lemma print_stream_frame_witness :
  result (_print_stream Sample.quiet (Str <$> Sample.hello_world)) = Return "Hello World" /\
  exists theme mid,
    config Sample.quiet !! "CODE_THEME" = Some theme /\
    trace (_print_stream Sample.quiet (Str <$> Sample.hello_world))
    = ConsolePrint "Assistant:" (Some "bold green") :: mid ++ [LiveUpdate "Hello World" theme].
Proof.
  split; [vm_compute; reflexivity|].
  apply (print_stream_frame Sample.quiet (Str <$> Sample.hello_world) "Hello World").
  vm_compute. reflexivity.
Defined.

(** *** Chunks *)

Lemma quote_lines_app a b : quote_lines (a +:+ b) = quote_lines a +:+ quote_lines b.
Proof. apply replace_app. Qed.

(** X7. Where a provider cuts the text does not matter: two deltas of
    reasoning text give the buffer and flag that one delta with the joined
    text gives, in reasoning mode or out of it, and the same holds for
    answer content. *)
Theorem chunking_is_invisible (a b buffer : string) (flag : bool) :
  (let '(buffer', flag') := _process_reasoning_content a buffer flag in
   _process_reasoning_content b buffer' flag')
  = _process_reasoning_content (a +:+ b) buffer flag /\
  (let '(buffer', flag') := _process_regular_content a buffer flag in
   _process_regular_content b buffer' flag')
  = _process_regular_content (a +:+ b) buffer flag.
Proof.
  unfold _process_reasoning_content, _process_regular_content.
  destruct flag; cbn [negb]; rewrite ?quote_lines_app, ?append_assoc; done.
Qed.

(** X8. A run of deltas that carry answer content only, met outside
    reasoning mode, accumulates to the buffer followed by the contents in
    order, and the flag stays false. *)
Theorem contents_concatenate
  (deltas : list value) (contents : list string) (buffer : string) :
  Forall2 (fun delta content =>
             get_reasoning_content delta = Return VNone /\
             Py.get delta "content" (VStr "") = Return (VStr content))
          deltas contents ->
  fold_left (fun acc delta => '(b, f) ← acc; process_delta delta b f)
            deltas (Return (buffer, false))
  = Return (buffer +:+ String.concat "" contents, false).
Proof.
  intros H. revert buffer.
  induction H as [|delta content deltas contents [Hr Hc] _ IH]; intros buffer.
  - simpl. by rewrite append_nil_r.
  - cbn [fold_left].
    change (Return (buffer, false) ≫= _) with (process_delta delta buffer false).
    rewrite (process_delta_content _ _ _ _ Hr Hc).
    assert ((if truthy (VStr content) then VStr content else VStr "") = VStr content) as ->.
    { by destruct content. }
    unfold _process_regular_content. rewrite IH. do 2 f_equal.
    rewrite append_assoc. f_equal.
    destruct contents; [by rewrite append_nil_r|done].
Qed.

Lemma contents_concatenate_witness :
  Forall2 (fun delta content =>
             get_reasoning_content delta = Return VNone /\
             Py.get delta "content" (VStr "") = Return (VStr content))
          [VDict {[ "content" := VStr "Hello" ]}; VDict {[ "content" := VStr " World" ]}]
          ["Hello"; " World"] /\
  fold_left (fun acc delta => '(b, f) ← acc; process_delta delta b f)
            [VDict {[ "content" := VStr "Hello" ]}; VDict {[ "content" := VStr " World" ]}]
            (Return ("", false))
  = Return ("Hello World", false).
Proof.
  assert (H : Forall2 (fun delta content =>
             get_reasoning_content delta = Return VNone /\
             Py.get delta "content" (VStr "") = Return (VStr content))
          [VDict {[ "content" := VStr "Hello" ]}; VDict {[ "content" := VStr " World" ]}]
          ["Hello"; " World"]).
  { repeat constructor. }
  split; [exact H|].
  exact (contents_concatenate _ _ "" H).
Defined.

(** *** The quoted block *)

Lemma quoted_nil : quoted "".
Proof. intros [|x a] rest H; discriminate H. Qed.

Lemma quoted_cons c s : c <> "010"%char -> quoted s -> quoted (String c s).
Proof.
  intros Hc Hs [|x a] rest H; cbv [String.append] in H; fold String.append in H.
  - congruence.
  - injection H as -> ->. by apply (Hs a).
Qed.

Lemma quoted_feed s : Text.startswith "> " s = true -> quoted s -> quoted (String "010" s).
Proof.
  intros Hp Hs [|x a] rest H; cbv [String.append] in H; fold String.append in H.
  - by injection H as <-.
  - injection H as _ ->. by apply (Hs a).
Qed.

Lemma quoted_quote_lines reason : quoted (quote_lines reason).
Proof.
  unfold quote_lines.
  induction reason as [|c r IH]; [apply quoted_nil|]. simpl.
  destruct (Ascii.eqb c "010") eqn:E.
  - change (Text.LF +:+ "> " +:+ ?x) with (String "010" (String ">" (String " " x))).
    apply quoted_feed; [reflexivity|].
    apply quoted_cons; [discriminate|]. by apply quoted_cons.
  - apply quoted_cons; [|done]. by apply Ascii.eqb_neq in E.
Qed.

(** X9. A reasoning block opened outside reasoning mode and continued by any
    number of reasoning deltas is quoted throughout: the buffer starts with
    the quote prefix and each of its line feeds is followed by the quote
    prefix, so that every line of the block renders as a quotation. *)
Theorem reasoning_block_is_quoted (first : string) (more : list string) (buffer : string) :
  let block :=
    (fold_left (fun st r => _process_reasoning_content r st.1 st.2) more
               (_process_reasoning_content first buffer false)).1 in
  Text.startswith "> " block = true /\
  forall a rest, block = a +:+ Text.LF +:+ rest -> Text.startswith "> " rest = true.
Proof.
  assert (H : forall rs r0,
    fold_left (fun st r => _process_reasoning_content r st.1 st.2) rs
              (quote_header +:+ quote_lines r0, true)
    = (quote_header +:+ quote_lines (r0 +:+ String.concat "" rs), true)).
  { induction rs as [|r rs IH]; intros r0.
    - simpl. by rewrite append_nil_r.
    - cbn [fold_left]. unfold _process_reasoning_content at 2. cbn [fst snd negb].
      rewrite append_assoc, <- quote_lines_app, IH. do 3 f_equal.
      rewrite append_assoc. f_equal. destruct rs; [by rewrite append_nil_r|done]. }
  intros block.
  assert (Hb : block
            = quote_header +:+ quote_lines (first +:+ String.concat "" more)).
  { subst block.
    change (_process_reasoning_content first buffer false)
      with (quote_header +:+ quote_lines first, true).
    by rewrite H. }
  rewrite Hb. clear Hb block H.
  split; [reflexivity|].
  assert (Hq : quoted (quote_header +:+ quote_lines (first +:+ String.concat "" more))).
  { unfold quote_header.
    change ("> Reasoning:" +:+ Text.LF +:+ "> " +:+ ?x)
      with (String ">" (String " " (String "R" (String "e" (String "a" (String "s"
             (String "o" (String "n" (String "i" (String "n" (String "g" (String ":"
             (String "010" (String ">" (String " " x))))))))))))))).
    repeat (apply quoted_cons; [discriminate|]).
    apply quoted_feed; [reflexivity|].
    repeat (apply quoted_cons; [discriminate|]).
    apply quoted_quote_lines. }
  exact Hq.
Qed.

(** *** Values of the wrong type *)

(** X10. A reasoning field that holds something other than a string or
    [null] makes [reason.replace] raise [AttributeError]; answer content
    that is true but not a string makes [full_completion += content] raise
    [TypeError]. Content that is false ([null], [0], [[]], ...) counts as
    empty text instead. *)
Theorem wrong_types_raise (delta r c : value) (buffer : string) (flag : bool) :
  (get_reasoning_content delta = Return r ->
   r <> VNone -> (forall s, r <> VStr s) ->
   process_delta delta buffer flag = Raise AttributeError) /\
  (get_reasoning_content delta = Return VNone ->
   Py.get delta "content" (VStr "") = Return c ->
   (forall s, c <> VStr s) ->
   process_delta delta buffer flag
   = if truthy c then Raise TypeError
     else Return (_process_regular_content "" buffer flag)).
Proof.
  split.
  - intros E Hn Hs. unfold process_delta. rewrite E.
    destruct r; try done. by destruct (Hs s).
  - intros E Ec Hs. rewrite (process_delta_content _ _ _ _ E Ec).
    destruct (truthy c); [|done]. destruct c; try done. by destruct (Hs s).
Qed.

Lemma wrong_types_raise_witness :
  process_delta (VDict {[ "reasoning" := VList [VStr "a"] ]}) "" false = Raise AttributeError /\
  process_delta (VDict {[ "content" := VInt 5 ]}) "" false = Raise TypeError /\
  process_delta (VDict {[ "content" := VInt 0 ]}) "Hello" false = Return ("Hello", false).
Proof.
  split; [|split].
  - apply (proj1 (wrong_types_raise (VDict {[ "reasoning" := VList [VStr "a"] ]})
                    (VList [VStr "a"]) VNone "" false)); [reflexivity | discriminate | discriminate].
  - exact (proj2 (wrong_types_raise (VDict {[ "content" := VInt 5 ]})
                    VNone (VInt 5) "" false) eq_refl eq_refl ltac:(discriminate)).
  - exact (proj2 (wrong_types_raise (VDict {[ "content" := VInt 0 ]})
                    VNone (VInt 0) "Hello" false) eq_refl eq_refl ltac:(discriminate)).
Defined.

End StreamMore.

(** ** The conversation history *)

Module HistoryFacts.
Import Py Effect CLI History.

#[local] Arguments mbind : simpl never.
#[local] Arguments mret : simpl never.

(** The last [n] elements. *)
Lemma slice_from_neg {A} (n : nat) (l : list A) :
  (0 < n)%nat -> slice_from (- Z.of_nat n) l = drop (length l - n) l.
Proof.
  intros Hn. unfold slice_from.
  destruct (Z.ltb_spec (- Z.of_nat n) 0) as [_|H]; [|lia].
  f_equal. lia.
Qed.

Lemma check_history_len_drop (st : state) :
  0 < max_history_length st ->
  _check_history_len st
  = State (drop (length (history st) - Z.to_nat (max_history_length st)) (history st))
          (max_history_length st).
Proof.
  intros Hm. unfold _check_history_len.
  destruct (Z.gtb_spec (Z.of_nat (length (history st))) (max_history_length st)) as [H|H].
  - f_equal. rewrite <- (Z2Nat.id (max_history_length st)) at 1 by lia.
    apply slice_from_neg. lia.
  - replace (length (history st) - Z.to_nat (max_history_length st))%nat with 0%nat by lia.
    by destruct st.
Qed.

(** X11. With a positive bound, [_check_history_len] keeps the newest
    messages and nothing else: what is left is the end of the old history,
    as long as the bound allows, and the bound itself is not changed. *)
Theorem check_history_len_keeps_newest (st : state) :
  0 < max_history_length st ->
  max_history_length (_check_history_len st) = max_history_length st /\
  Z.of_nat (length (history (_check_history_len st)))
  = Z.min (Z.of_nat (length (history st))) (max_history_length st) /\
  exists oldest, history st = oldest ++ history (_check_history_len st).
Proof.
  intros Hm. rewrite (check_history_len_drop st Hm). cbn [history max_history_length].
  split; [done|]. split.
  - rewrite length_drop. lia.
  - exists (take (length (history st) - Z.to_nat (max_history_length st)) (history st)).
    by rewrite take_drop.
Qed.

Lemma check_history_len_keeps_newest_witness :
  history (_check_history_len
             (State [Message "user" "a"; Message "assistant" "b"; Message "user" "c"] 2))
  = [Message "assistant" "b"; Message "user" "c"] /\
  exists oldest,
    [Message "user" "a"; Message "assistant" "b"; Message "user" "c"]
    = oldest ++ history (_check_history_len
                           (State [Message "user" "a"; Message "assistant" "b";
                                   Message "user" "c"] 2)).
Proof.
  split; [reflexivity|].
  apply (check_history_len_keeps_newest
           (State [Message "user" "a"; Message "assistant" "b"; Message "user" "c"] 2)).
  reflexivity.
Defined.

Lemma remember_drop (st : state) (user_input content : string) :
  0 < max_history_length st ->
  remember st user_input content
  = State (drop (length (history st) + 2 - Z.to_nat (max_history_length st))
                (history st ++ [Message "user" user_input; Message "assistant" content]))
          (max_history_length st).
Proof.
  intros Hm. unfold remember. rewrite check_history_len_drop by done.
  cbn [history max_history_length]. by rewrite length_app.
Qed.

Lemma drop_drop_app {A} (n : nat) (l k : list A) :
  drop (length (drop (length l - n) l ++ k) - n) (drop (length l - n) l ++ k)
  = drop (length (l ++ k) - n) (l ++ k).
Proof.
  rewrite !length_app, length_drop.
  destruct (Nat.le_gt_cases (length l) n) as [H|H].
  - replace (length l - n)%nat with 0%nat by lia. cbn [drop].
    by replace (length l - 0)%nat with (length l) by lia.
  - replace (length l - (length l - n) + length k - n)%nat with (length k) by lia.
    replace (length l + length k - n)%nat with (length l - n + length k)%nat by lia.
    rewrite <- drop_drop. by rewrite (drop_app_le l k) by lia.
Qed.

Lemma converse_drop (turns : list (string * string)) :
  forall st, 0 < max_history_length st ->
  (Z.of_nat (length (history st)) <= max_history_length st) ->
  converse st turns
  = State (drop (length (history st ++ transcript turns) - Z.to_nat (max_history_length st))
                (history st ++ transcript turns))
          (max_history_length st).
Proof.
  induction turns as [|[user_input content] turns IH]; intros st Hm Hl.
  - unfold converse, transcript. cbn. rewrite app_nil_r.
    replace (length (history st) - Z.to_nat (max_history_length st))%nat with 0%nat by lia.
    by destruct st.
  - unfold converse. cbn [fold_left].
    change (fold_left _ turns ?s) with (converse s turns).
    rewrite remember_drop by done. rewrite IH; cbn [history max_history_length]; [|done|].
    2:{ rewrite length_drop, length_app. cbn [length]. lia. }
    f_equal.
    change (transcript ((user_input, content) :: turns))
      with ([Message "user" user_input; Message "assistant" content] ++ transcript turns).
    rewrite (app_assoc (history st)).
    set (l := history st ++ [Message "user" user_input; Message "assistant" content]).
    set (n := Z.to_nat (max_history_length st)).
    replace (length (history st) + 2)%nat with (length l).
    2:{ subst l. rewrite length_app. done. }
    apply drop_drop_app.
Qed.

(** X12. Cutting after every turn is cutting once at the end: after any
    number of turns from the empty history, the history is the last 25
    messages of the whole conversation, or all of it if it is shorter. *)
Theorem history_is_end_of_transcript (turns : list (string * string)) :
  history (converse init turns)
  = drop (length (transcript turns) - 25) (transcript turns) /\
  (length (history (converse init turns)) <= 25)%nat.
Proof.
  rewrite (converse_drop turns init) by done.
  change (Z.to_nat (max_history_length init)) with 25%nat. cbn [history init app].
  split; [done|]. rewrite length_drop. lia.
Qed.

Lemma transcript_length turns : length (transcript turns) = (2 * length turns)%nat.
Proof.
  induction turns as [|[u c] turns IH]; [done|].
  change (transcript ((u, c) :: turns))
    with ([Message "user" u; Message "assistant" c] ++ transcript turns).
  rewrite length_app, IH. cbn [length]. lia.
Qed.

Lemma transcript_drop_odd (k : nat) :
  forall turns user_input content,
  turns !! k = Some (user_input, content) ->
  drop (2 * k + 1) (transcript turns)
  = Message "assistant" content :: transcript (drop (S k) turns).
Proof.
  induction k as [|k IH]; intros [|[u c] turns] user_input content H; try done.
  - by injection H as -> ->.
  - replace (2 * S k + 1)%nat with (S (S (2 * k + 1))) by lia.
    change (transcript ((u, c) :: turns))
      with (Message "user" u :: Message "assistant" c :: transcript turns).
    cbn [drop]. by apply (IH turns user_input).
Qed.

(** X13. The bound is odd and messages come in pairs: from the thirteenth
    turn on, the history holds 25 messages and begins with an answer whose
    question has been dropped, the answer of the thirteenth turn from the
    end; so do the messages that [_build_messages] puts after the system
    prompt. *)
Theorem history_begins_with_answer
  (turns : list (string * string)) (system_prompt user_input : string) :
  (13 <= length turns)%nat ->
  length (history (converse init turns)) = 25%nat /\
  exists question answer rest,
    turns !! (length turns - 13)%nat = Some (question, answer) /\
    history (converse init turns) = Message "assistant" answer :: rest /\
    _build_messages system_prompt (converse init turns) user_input
    = Message "system" system_prompt :: Message "assistant" answer
      :: rest ++ [Message "user" user_input].
Proof.
  intros Hn.
  destruct (history_is_end_of_transcript turns) as [Hh _].
  split.
  { rewrite Hh, length_drop, transcript_length. lia. }
  destruct (lookup_lt_is_Some_2 turns (length turns - 13)%nat ltac:(lia))
    as [[question answer] Ht].
  exists question, answer, (transcript (drop (S (length turns - 13)) turns)).
  split; [done|].
  assert (Hd : history (converse init turns)
               = Message "assistant" answer
                 :: transcript (drop (S (length turns - 13)) turns)).
  { rewrite Hh, transcript_length.
    replace (2 * length turns - 25)%nat with (2 * (length turns - 13) + 1)%nat by lia.
    by apply (transcript_drop_odd _ _ question). }
  split; [done|]. unfold _build_messages. by rewrite Hd.
Qed.

Lemma history_begins_with_answer_witness :
  length (history (converse init (replicate 13 ("q", "a")))) = 25%nat /\
  head (history (converse init (replicate 13 ("q", "a")))) = Some (Message "assistant" "a").
Proof.
  destruct (history_begins_with_answer (replicate 13 ("q", "a")) "" "" ltac:(simpl; lia))
    as (Hl & question & answer & rest & Ht & Hh & _).
  split; [exact Hl|]. rewrite Hh.
  vm_compute in Ht. by injection Ht as _ <-.
Defined.

Section Response.

Variable response : Type.
Variable iter_lines : response -> list line.
Variable _print_normal : CLI.t -> response -> io string.

(** X14. What [_handle_llm_response] returns is what it remembers: with a
    bound of at least two, the history ends with the question and the
    returned answer; and when the answer was streamed, it is the text of the
    last repaint. *)
Theorem answer_is_remembered
  (self : CLI.t) (st st' : state) (r : response) (user_input content : string) :
  2 <= max_history_length st ->
  result (_handle_llm_response response iter_lines _print_normal self st r user_input)
  = Return (content, st') ->
  (exists older,
     history st' = older ++ [Message "user" user_input; Message "assistant" content]) /\
  (config self !! "STREAM" = Some "true" ->
   exists theme,
     last (trace (_handle_llm_response response iter_lines _print_normal
                    self st r user_input))
     = Some (LiveUpdate content theme)).
Proof.
  intros Hm. unfold _handle_llm_response, is_stream, config_item, lift.
  unfold mbind, io_bind, outcome_bind, mret, io_ret, outcome_ret. cbn [trace result].
  destruct (config self !! "STREAM") as [stream|] eqn:Es; cbn [trace result]; [|done].
  set (printed := if String.eqb stream "true" then _ else _).
  destruct (result printed) as [text|e] eqn:Ep; cbn [trace result]; [|done].
  intros ?; simplify_eq. split.
  - rewrite remember_drop by lia. cbn [history].
    set (new := [Message "user" user_input; Message "assistant" content]).
    exists (drop (length (history st) + 2 - Z.to_nat (max_history_length st)) (history st)).
    rewrite drop_app_le; [done|]. lia.
  - intros [= ->]. subst printed.
    change (String.eqb "true" "true") with true in Ep |- *. cbn beta iota in Ep |- *.
    destruct (StreamMore.print_stream_frame_parts self (iter_lines r) content Ep)
      as (theme & mid & _ & ->).
    exists theme. cbn [app]. rewrite app_nil_r.
    by rewrite app_comm_cons, last_snoc.
Qed.

End Response.

Lemma answer_is_remembered_witness :
  exists older,
    history (remember init "Hi" "Hello World")
    = older ++ [Message "user" "Hi"; Message "assistant" "Hello World"].
Proof.
  exact (proj1 (answer_is_remembered (list line) id (fun _ _ => mret "")
                  (Build_t false {[ "STREAM" := "true"; "CODE_THEME" := "monokia" ]}
                           Sample.plain)
                  init (remember init "Hi" "Hello World")
                  (Str <$> Sample.hello_world) "Hi" "Hello World"
                  ltac:(vm_compute; discriminate) ltac:(vm_compute; reflexivity))).
Defined.

End HistoryFacts.

(** ** Configuration and start-up *)

Module ConfigFacts.
Import Py Effect CLI Config.

(** *** The three sources of a setting *)

Lemma env_other (env : gmap string string) (l : list entry) (k : string) :
  k ∉ key <$> l ->
  forall merged_config : gmap string string,
  fold_left
    (fun (merged_config : gmap string string) e =>
       match env !! env_key e with
       | Some env_value => <[key e := env_value]> merged_config
       | None => merged_config
       end) l merged_config !! k
  = merged_config !! k.
Proof.
  induction l as [|a l IH]; intros Hk merged_config; [done|].
  cbn [fold_left]. rewrite fmap_cons, not_elem_of_cons in Hk. destruct Hk as [Ha Hl].
  rewrite IH by done. destruct (env !! env_key a); [|done].
  by rewrite lookup_insert_ne.
Qed.

Lemma env_known (env : gmap string string) (l : list entry) :
  NoDup (key <$> l) ->
  forall (merged_config : gmap string string) e, e ∈ l ->
  fold_left
    (fun (merged_config : gmap string string) e =>
       match env !! env_key e with
       | Some env_value => <[key e := env_value]> merged_config
       | None => merged_config
       end) l merged_config !! key e
  = match env !! env_key e with
    | Some env_value => Some env_value
    | None => merged_config !! key e
    end.
Proof.
  induction l as [|a l IH]; intros Hnd merged_config e He; [by apply elem_of_nil in He|].
  rewrite fmap_cons in Hnd. apply NoDup_cons in Hnd as [Ha Hnd].
  cbn [fold_left]. apply elem_of_cons in He as [->|He].
  - rewrite env_other by done. destruct (env !! env_key a); [|done].
    by rewrite lookup_insert_eq.
  - rewrite IH by done. destruct (env !! env_key e); [done|].
    destruct (env !! env_key a); [|done].
    rewrite lookup_insert_ne; [done|].
    intros Heq. apply Ha. rewrite Heq. by apply list_elem_of_fmap_2.
Qed.

Lemma keys_NoDup : NoDup (key <$> DEFAULT_CONFIG_MAP).
Proof. apply (bool_decide_unpack _). by vm_compute. Qed.

Lemma defaults_known e : e ∈ DEFAULT_CONFIG_MAP -> defaults !! key e = Some (value e).
Proof.
  unfold DEFAULT_CONFIG_MAP. intros H.
  repeat (apply elem_of_cons in H as [->|H]; [by vm_compute|]).
  by apply elem_of_nil in H.
Qed.

Lemma defaults_other k : k ∉ key <$> DEFAULT_CONFIG_MAP -> defaults !! k = None.
Proof.
  intros H. unfold defaults. apply not_elem_of_list_to_map_1.
  by rewrite <- list_fmap_compose.
Qed.

Lemma from_file_lookup core merged_config k :
  from_file core merged_config !! k
  = match core !! k with
    | Some v => if bool_decide (PyStr.strip v = "") then merged_config !! k else Some v
    | None => merged_config !! k
    end.
Proof.
  unfold from_file. rewrite lookup_union, map_lookup_filter.
  destruct (core !! k) as [v|]; cbn.
  - case_bool_decide as Hv.
    + rewrite option_guard_False by (by intros []). by destruct (merged_config !! k).
    + rewrite option_guard_True by done. by destruct (merged_config !! k).
  - by destruct (merged_config !! k).
Qed.

(** The value of a known setting before [STREAM] is put in lower case. *)
Lemma merged_known (file : config_file) (env : gmap string string) (e : entry) :
  e ∈ DEFAULT_CONFIG_MAP ->
  from_env env
    match file with
    | Parsed (Some core) => from_file core defaults
    | _ => defaults
    end !! key e
  = Some match env !! env_key e with
         | Some env_value => env_value
         | None =>
             match file with
             | Parsed (Some core) =>
                 match core !! key e with
                 | Some v => if bool_decide (PyStr.strip v = "") then value e else v
                 | None => value e
                 end
             | _ => value e
             end
         end.
Proof.
  intros He. unfold from_env. rewrite (env_known env _ keys_NoDup) by done.
  destruct (env !! env_key e); [done|].
  destruct file as [|[core|]]; rewrite ?from_file_lookup, ?defaults_known by done; [done| |done].
  destruct (core !! key e) as [v|]; [|done]. by case_bool_decide.
Qed.

Section Load.

Variable lower : string -> string.
Variable new_console : Console.

Lemma load_config_eq (file : config_file) (env : gmap string string) :
  (load_config lower file env).2
  = let merged_config :=
      from_env env match file with
                   | Parsed (Some core) => from_file core defaults
                   | _ => defaults
                   end in
    <["STREAM" := lower (get merged_config "STREAM" "true")]> merged_config.
Proof. unfold load_config. by destruct file as [|[core|]]. Qed.

(** X15. Every setting of [DEFAULT_CONFIG_MAP] is present after
    [load_config], and its value is the environment variable when that is
    set (even to the empty text), else the value of the file's [core] section
    when that is not blank, else the default; [STREAM] is this value in
    lower case. *)
Theorem load_config_precedence
  (file : config_file) (env : gmap string string) (e : entry) :
  e ∈ DEFAULT_CONFIG_MAP ->
  (load_config lower file env).2 !! key e
  = Some ((if String.eqb (key e) "STREAM" then lower else id)
            match env !! env_key e with
            | Some env_value => env_value
            | None =>
                match file with
                | Parsed (Some core) =>
                    match core !! key e with
                    | Some v => if bool_decide (PyStr.strip v = "") then value e else v
                    | None => value e
                    end
                | _ => value e
                end
            end).
Proof.
  intros He. rewrite load_config_eq. cbv zeta.
  destruct (String.eqb_spec (key e) "STREAM") as [Hk|Hk].
  - rewrite Hk, lookup_insert_eq. unfold get. rewrite <- Hk.
    by rewrite (merged_known file env e He).
  - rewrite lookup_insert_ne by done. by rewrite (merged_known file env e He).
Qed.

(** X16. A key that [DEFAULT_CONFIG_MAP] does not list can only come from
    the file: it is in the configuration exactly when the [core] section
    gives it a value that is not blank, and no environment variable changes
    it. *)
Theorem load_config_unknown_key
  (file : config_file) (env : gmap string string) (k : string) :
  k ∉ key <$> DEFAULT_CONFIG_MAP ->
  (load_config lower file env).2 !! k
  = match file with
    | Parsed (Some core) =>
        match core !! k with
        | Some v => if bool_decide (PyStr.strip v = "") then None else Some v
        | None => None
        end
    | _ => None
    end.
Proof.
  intros Hk. rewrite load_config_eq. cbv zeta.
  assert (k <> "STREAM") as Hs.
  { intros ->. apply Hk. unfold DEFAULT_CONFIG_MAP. cbn [fmap list_fmap key].
    repeat constructor. }
  rewrite lookup_insert_ne by done. unfold from_env. rewrite env_other by done.
  destruct file as [|[core|]]; rewrite ?from_file_lookup, ?defaults_other by done; done.
Qed.


(** *** Start-up *)

(** X17. [run] stops with exit code 1, after saying that the API key is not
    set, exactly when the key that [load_config] settles on is empty: the
    environment variable [YAI_API_KEY] if it is set, even to the empty text,
    else the file's [API_KEY] unless it is blank. Otherwise it starts the
    loop when [chat] is set, whatever the prompt, and else the single
    request, in exec mode when [shell] is set. *)
Theorem run_needs_api_key
  (verbose : bool) (file : config_file) (env : gmap string string)
  (chat shell : bool) (prompt : string) :
  let api_key :=
    match env !! "YAI_API_KEY" with
    | Some env_value => env_value
    | None =>
        match file with
        | Parsed (Some core) =>
            match core !! "API_KEY" with
            | Some v => if bool_decide (PyStr.strip v = "") then "" else v
            | None => ""
            end
        | _ => ""
        end
    end in
  let self := Build_t verbose (load_config lower file env).2 new_console in
  config self !! "API_KEY" = Some api_key /\
  (run lower new_console verbose file env chat shell prompt).2
  = if String.eqb api_key "" then Exit 1
    else if chat then RunRepl self CHAT_MODE
    else RunOnce self (if shell then EXEC_MODE else TEMP_MODE) prompt shell.
Proof.
  intros api_key self.
  assert (Hk : (load_config lower file env).2 !! "API_KEY" = Some api_key).
  { exact (load_config_precedence file env (Entry "API_KEY" "" "YAI_API_KEY")
             ltac:(unfold DEFAULT_CONFIG_MAP; repeat constructor)). }
  split; [exact Hk|]. unfold run, unset.
  destruct (load_config lower file env) as [effects config] eqn:E. cbn [snd] in Hk.
  rewrite Hk. subst self. cbn [snd].
  destruct (String.eqb api_key ""); [done|]. by destruct chat.
Qed.

(** X18. When [main] starts a single request, a prompt was given and it is
    not empty, [--chat] and [--template] were not set, and the API key is not
    empty; when it starts the loop, [--chat] was set, [--template] was not,
    and the API key is not empty. *)
Theorem main_starts
  (prompt : option string) (chat shell verbose template : bool)
  (file : config_file) (env : gmap string string) (s : started) :
  (main lower new_console prompt chat shell verbose template file env).2 = Some s ->
  match s with
  | Exit code => code = 1 /\ template = false /\ prompt <> Some ""
  | RunRepl self current_mode =>
      chat = true /\ template = false /\ current_mode = CHAT_MODE /\
      exists api_key, config self !! "API_KEY" = Some api_key /\ api_key <> ""
  | RunOnce self current_mode p sh =>
      prompt = Some p /\ p <> "" /\ chat = false /\ template = false /\ sh = shell /\
      current_mode = (if shell then EXEC_MODE else TEMP_MODE) /\
      exists api_key, config self !! "API_KEY" = Some api_key /\ api_key <> ""
  end.
Proof.
  unfold main. case_bool_decide as Hp; [done|].
  destruct template; [done|].
  destruct (negb (given prompt) && negb chat) eqn:Hg; [done|].
  pose proof (run_needs_api_key verbose file env chat shell
                (if given prompt then default "" prompt else "")) as [Hk Hr].
  destruct (run lower new_console verbose file env chat shell _) as [effects s'].
  cbn [snd] in Hr |- *. intros [= <-]. rewrite Hr.
  match type of Hk with _ = Some ?k => set (api_key := k) in * end.
  destruct (String.eqb_spec api_key "") as [He|He]; [done|].
  destruct chat.
  - repeat split. by exists api_key.
  - rewrite andb_true_r in Hg. apply negb_false_iff in Hg. rewrite Hg.
    destruct prompt as [p|]; [|done]. cbn in Hg |- *.
    repeat split; try done.
    + intros ->. done.
    + by exists api_key.
Qed.

End Load.


Lemma load_config_precedence_witness :
  (load_config PyStr.lower_ascii (Parsed (Some {[ "API_KEY" := "from-file"; "MODEL" := "   " ]}))
                     {[ "YAI_API_KEY" := "" ]}).2 !! "API_KEY" = Some "" /\
  (load_config PyStr.lower_ascii (Parsed (Some {[ "API_KEY" := "from-file"; "MODEL" := "   " ]}))
                     {[ "YAI_API_KEY" := "" ]}).2 !! "MODEL" = Some "gpt-4o".
Proof.
  split.
  - exact (load_config_precedence PyStr.lower_ascii
             (Parsed (Some {[ "API_KEY" := "from-file"; "MODEL" := "   " ]}))
               {[ "YAI_API_KEY" := "" ]} (Entry "API_KEY" "" "YAI_API_KEY")
             ltac:(unfold DEFAULT_CONFIG_MAP; repeat constructor)).
  - exact (load_config_precedence PyStr.lower_ascii
             (Parsed (Some {[ "API_KEY" := "from-file"; "MODEL" := "   " ]}))
             {[ "YAI_API_KEY" := "" ]} (Entry "MODEL" "gpt-4o" "YAI_MODEL")
             ltac:(unfold DEFAULT_CONFIG_MAP; repeat constructor)).
Defined.

Lemma load_config_unknown_key_witness :
  (load_config PyStr.lower_ascii (Parsed (Some {[ "PROVIDER" := "openai" ]}))
               {[ "PROVIDER" := "x"; "YAI_PROVIDER" := "y" ]}).2 !! "PROVIDER"
  = Some "openai".
Proof.
  exact (load_config_unknown_key PyStr.lower_ascii (Parsed (Some {[ "PROVIDER" := "openai" ]}))
           {[ "PROVIDER" := "x"; "YAI_PROVIDER" := "y" ]} "PROVIDER"
           ltac:(apply (bool_decide_unpack _); vm_compute; exact I)).
Defined.


Lemma main_starts_witness :
  (main PyStr.lower_ascii Sample.plain (Some "list files") false true false false
        (Parsed (Some {[ "API_KEY" := "k" ]})) ∅).2
  = Some (RunOnce (Build_t false (load_config PyStr.lower_ascii
                                    (Parsed (Some {[ "API_KEY" := "k" ]})) ∅).2
                           Sample.plain)
                  EXEC_MODE "list files" true) /\
  "list files" <> "".
Proof.
  split; [reflexivity|].
  exact (proj1 (proj2 (main_starts PyStr.lower_ascii Sample.plain (Some "list files") false true false false
           (Parsed (Some {[ "API_KEY" := "k" ]})) ∅
           (RunOnce (Build_t false (load_config PyStr.lower_ascii
                                      (Parsed (Some {[ "API_KEY" := "k" ]})) ∅).2
                             Sample.plain)
                    EXEC_MODE "list files" true)
           eq_refl))).
Defined.

(** *** The address of the request *)

Lemma rstrip_char_one c b : PyStr.rstrip_char c (b +:+ String c "") = PyStr.rstrip_char c b.
Proof.
  induction b as [|a b IH].
  - cbv [String.append PyStr.rstrip_char]. by rewrite Ascii.eqb_refl.
  - cbv [String.append]; fold String.append. cbn [PyStr.rstrip_char]. by rewrite IH.
Qed.

Lemma rstrip_char_all c t :
  Text.all (Ascii.eqb c) t = true ->
  forall b, PyStr.rstrip_char c (b +:+ t) = PyStr.rstrip_char c b.
Proof.
  induction t as [|a t IH]; intros Ht b.
  - by rewrite StreamFacts.append_nil_r.
  - cbn [Text.all] in Ht. apply andb_true_iff in Ht as [Ha Ht].
    apply Ascii.eqb_eq in Ha as <-.
    change (String c t) with (String c "" +:+ t).
    rewrite <- StreamFacts.append_assoc, IH by done. apply rstrip_char_one.
Qed.

Lemma rstrip_char_id b : PyStr.endswith "/" b = false -> PyStr.rstrip_char "/" b = b.
Proof.
  induction b as [|a b IH]; [done|]. cbn [PyStr.endswith PyStr.rstrip_char].
  intros H. apply orb_false_iff in H as [Ha Hb]. rewrite IH by done.
  destruct b as [|a' b]; [|done].
  destruct (Ascii.eqb_spec a "/") as [->|]; [done|done].
Qed.

Lemma lstrip_char_all c t p :
  Text.all (Ascii.eqb c) t = true ->
  PyStr.lstrip_char c (t +:+ p) = PyStr.lstrip_char c p.
Proof.
  induction t as [|a t IH]; intros Ht; [done|].
  cbn [Text.all] in Ht. apply andb_true_iff in Ht as [Ha Ht].
  cbv [String.append]; fold String.append. cbn [PyStr.lstrip_char].
  rewrite Ascii.eqb_sym, Ha. by apply IH.
Qed.

Lemma lstrip_char_id p : Text.startswith "/" p = false -> PyStr.lstrip_char "/" p = p.
Proof.
  destruct p as [|a p]; [done|]. cbn. by destruct (Ascii.eqb a "/").
Qed.

(** X19. Slashes at the joint do not matter: however many slashes end
    [BASE_URL] and begin [COMPLETION_PATH], the request goes to the base and
    the path joined by one slash. *)
Theorem post_url_slashes (config : gmap string string) (b t u p : string) :
  Text.all (Ascii.eqb "/") t = true -> Text.all (Ascii.eqb "/") u = true ->
  PyStr.endswith "/" b = false -> Text.startswith "/" p = false ->
  config !! "BASE_URL" = Some (b +:+ t) ->
  config !! "COMPLETION_PATH" = Some (u +:+ p) ->
  post_url config = b +:+ "/" +:+ p.
Proof.
  intros Ht Hu Hb Hp Eb Ep. unfold post_url, get. rewrite Eb, Ep.
  rewrite rstrip_char_all, lstrip_char_all by done.
  by rewrite rstrip_char_id, lstrip_char_id.
Qed.

Lemma post_url_slashes_witness :
  post_url {[ "BASE_URL" := "https://api.openai.com/v1/";
              "COMPLETION_PATH" := "/chat/completions" ]}
  = "https://api.openai.com/v1/chat/completions" /\
  post_url defaults = "https://api.openai.com/v1/chat/completions".
Proof.
  split.
  - exact (post_url_slashes {[ "BASE_URL" := "https://api.openai.com/v1/";
                               "COMPLETION_PATH" := "/chat/completions" ]}
             "https://api.openai.com/v1" "/" "/" "chat/completions"
             eq_refl eq_refl eq_refl eq_refl eq_refl eq_refl).
  - exact (post_url_slashes defaults "https://api.openai.com/v1" "" "" "chat/completions"
             eq_refl eq_refl eq_refl eq_refl eq_refl eq_refl).
Defined.

End ConfigFacts.

(** ** The generated command *)

Module CommandFacts.
Import Py Effect CLI PyStr Command StreamFacts.

#[local] Abbreviation no_backtick w :=
  (Text.all (fun c => negb (Ascii.eqb c "`")) w = true).

(** *** Texts *)

Lemma append_length a b : String.length (a +:+ b) = (String.length a + String.length b)%nat.
Proof.
  induction a as [|c a IH]; [done|].
  cbv [String.append]; fold String.append. cbn [String.length]. by rewrite IH.
Qed.

Lemma all_over_append p a b : Text.all p (a +:+ b) = Text.all p a && Text.all p b.
Proof.
  induction a as [|c a IH]; [done|].
  cbv [String.append]; fold String.append. cbn [Text.all]. by rewrite IH, andb_assoc.
Qed.

Lemma append_cons c a b : String c a +:+ b = String c (a +:+ b).
Proof. done. Qed.

(** A text without a backtick cannot reach into a fence. *)
Lemma prefix_before_backtick w : forall x r f,
  no_backtick w -> x +:+ String "`" f = w +:+ r ->
  exists x', x = w +:+ x' /\ r = x' +:+ String "`" f.
Proof.
  induction w as [|c w IH]; intros x r f Hw H.
  - change ("" +:+ r) with r in H. subst r. by exists x.
  - cbn [Text.all] in Hw. apply andb_true_iff in Hw as [Hc Hw].
    destruct x as [|d x]; rewrite ?append_cons in H.
    + change ("" +:+ String "`" f) with (String "`" f) in H.
      injection H as <- _. done.
    + injection H as -> H. destruct (IH x r f Hw H) as (x' & -> & ->).
      by exists x'.
Qed.

Lemma contains_no_backtick s : no_backtick s -> Text.contains "```" s = false.
Proof.
  induction s as [|a s IH]; [done|]. cbn [Text.all Text.contains Text.startswith].
  intros H. apply andb_true_iff in H as [Ha Hs]. rewrite IH by done.
  apply negb_true_iff in Ha. by rewrite Ha.
Qed.

Lemma contains_skip w r : no_backtick w -> Text.contains "```" (w +:+ r) = Text.contains "```" r.
Proof.
  induction w as [|a w IH]; [done|]. cbn [Text.all]. intros H.
  apply andb_true_iff in H as [Ha Hw]. rewrite append_cons.
  cbn [Text.contains Text.startswith]. apply negb_true_iff in Ha. rewrite Ha.
  by apply IH.
Qed.

(** *** White space *)

Lemma space1_small a : space1 a = true -> (N_of_ascii a <= 32)%N.
Proof.
  unfold space1. cbv zeta. intros H.
  apply orb_true_iff in H as [H|H]; apply andb_true_iff in H as [_ H];
    apply N.leb_le in H; lia.
Qed.

Lemma space2_high a b : space2 a b = true -> (128 <= N_of_ascii a /\ 128 <= N_of_ascii b)%N.
Proof.
  unfold space2. cbv zeta. intros H.
  apply andb_true_iff in H as [Ha H]. apply N.eqb_eq in Ha.
  apply orb_true_iff in H as [H|H]; apply N.eqb_eq in H; lia.
Qed.

Lemma space3_high a b c :
  space3 a b c = true ->
  (128 <= N_of_ascii a /\ 128 <= N_of_ascii b /\ 128 <= N_of_ascii c)%N.
Proof.
  unfold space3. cbv zeta. intros H.
  repeat match goal with
         | H : (_ && _) = true |- _ =>
             let H1 := fresh "H" in apply andb_true_iff in H as [H1 H]
         | H : (_ || _) = true |- _ => apply orb_true_iff in H as [H|H]
         | H : (_ =? _)%N = true |- _ => apply N.eqb_eq in H
         | H : (_ <=? _)%N = true |- _ => apply N.leb_le in H
         end; lia.
Qed.

Lemma not_backtick a : (N_of_ascii a <> 96)%N -> negb (Ascii.eqb a "`") = true.
Proof.
  intros H. apply negb_true_iff, Ascii.eqb_neq. intros ->. by apply H.
Qed.

(** A character below U+0080 that is no white space stops [lstrip]. *)
Lemma lstrip_stop a r :
  (N_of_ascii a < 128)%N -> space1 a = false -> lstrip (String a r) = String a r.
Proof.
  intros Ha H1. cbn [lstrip]. rewrite H1.
  destruct r as [|b r]; [done|].
  destruct (space2 a b) eqn:H2; [apply space2_high in H2; lia|].
  destruct r as [|c r]; [done|].
  destruct (space3 a b c) eqn:H3; [apply space3_high in H3; lia|done].
Qed.

(** [lstrip] returns its argument, or goes on after a white space
    character, which holds no backtick. *)
Lemma lstrip_cases s :
  lstrip s = s \/
  exists w r, s = w +:+ r /\ w <> "" /\ lstrip s = lstrip r /\ no_backtick w.
Proof.
  destruct s as [|a r]; [by left|]. cbn [lstrip].
  destruct (space1 a) eqn:H1.
  { right. exists (String a ""), r. apply space1_small in H1.
    repeat split; try done. cbn [Text.all]. rewrite not_backtick by lia. done. }
  destruct r as [|b r]; [by left|].
  destruct (space2 a b) eqn:H2.
  { right. exists (String a (String b "")), r. apply space2_high in H2.
    repeat split; try done. cbn [Text.all]. rewrite !not_backtick by lia. done. }
  destruct r as [|c r]; [by left|].
  destruct (space3 a b c) eqn:H3; [|by left].
  right. exists (String a (String b (String c ""))), r. apply space3_high in H3.
  repeat split; try done. cbn [Text.all]. rewrite !not_backtick by lia. done.
Qed.

(** A text of white space holds no backtick. *)
Lemma blank_no_backtick s : lstrip s = "" -> no_backtick s.
Proof.
  remember (String.length s) as n eqn:Hn. revert s Hn.
  induction n as [n IH] using lt_wf_ind. intros s Hn Hs.
  destruct (lstrip_cases s) as [H|(w & r & -> & Hw & Hl & Hb)].
  - rewrite Hs in H. by subst s.
  - rewrite all_over_append, Hb. cbn [andb].
    apply (IH (String.length r)); [|done|by rewrite <- Hl].
    rewrite Hn, append_length. destruct w; [done|]. cbn [String.length]. lia.
Qed.

(** [lstrip] does not reach a fence. *)
Lemma lstrip_keeps_fence s :
  Text.contains "```" s = true -> Text.contains "```" (lstrip s) = true.
Proof.
  remember (String.length s) as n eqn:Hn. revert s Hn.
  induction n as [n IH] using lt_wf_ind. intros s Hn Hs.
  destruct (lstrip_cases s) as [->|(w & r & -> & Hw & -> & Hb)]; [done|].
  rewrite contains_skip in Hs by done.
  apply (IH (String.length r)); [|done|done].
  rewrite Hn, append_length. destruct w; [done|]. cbn [String.length]. lia.
Qed.

(** A text with a fence is not blank. *)
Lemma strip_keeps_fence s : Text.contains "```" s = true -> strip s <> "".
Proof.
  intros Hs. apply lstrip_keeps_fence in Hs. unfold strip.
  destruct (lstrip s) as [|a r] eqn:E; [done|]. cbn [rstrip].
  destruct (blank (String a r)) eqn:Hb; [|done].
  unfold blank in Hb. apply String.eqb_eq in Hb.
  apply blank_no_backtick, contains_no_backtick in Hb. congruence.
Qed.

(** Before a fence, [lstrip] leaves something. *)
Lemma lstrip_before_fence x f : lstrip (x +:+ String "`" f) <> "".
Proof.
  remember (String.length x) as n eqn:Hn. revert x Hn.
  induction n as [n IH] using lt_wf_ind. intros x Hn.
  destruct (lstrip_cases (x +:+ String "`" f)) as [->|(w & r & E & Hw & -> & Hb)].
  - by destruct x.
  - destruct (prefix_before_backtick w x r f Hb E) as (x' & -> & ->).
    apply (IH (String.length x')); [|done].
    rewrite Hn, append_length. destruct w; [done|]. cbn [String.length]. lia.
Qed.

Lemma rstrip_before_fence x f : rstrip (x +:+ "```" +:+ f) = x +:+ rstrip ("```" +:+ f).
Proof.
  induction x as [|a x IH]; [done|]. rewrite append_cons. cbn [rstrip].
  rewrite IH. unfold blank.
  pose proof (lstrip_before_fence (String a x) ("``" +:+ f)) as H.
  change (String a x +:+ String "`" ("``" +:+ f)) with (String a (x +:+ "```" +:+ f)) in H.
  by destruct (String.eqb_spec (lstrip (String a (x +:+ "```" +:+ f))) "").
Qed.

(** A text between fences is not changed by [strip]. *)
Lemma strip_fenced y : strip ("```" +:+ y +:+ "```") = "```" +:+ y +:+ "```".
Proof.
  unfold strip.
  assert (lstrip ("```" +:+ y +:+ "```") = "```" +:+ y +:+ "```") as ->.
  { change ("```" +:+ y +:+ "```") with (String "`" ("``" +:+ y +:+ "```")).
    apply lstrip_stop; reflexivity. }
  exact (rstrip_before_fence ("```" +:+ y) "").
Qed.

(** *** Lines *)

Lemma contains_LF_cons a r :
  Text.contains Text.LF (String a r) = Ascii.eqb a "010" || Text.contains Text.LF r.
Proof. cbn [Text.contains Text.startswith Text.LF]. by rewrite andb_true_r. Qed.

Lemma contains_LF_app a b :
  Text.contains Text.LF (a +:+ b) = Text.contains Text.LF a || Text.contains Text.LF b.
Proof.
  induction a as [|c a IH]; [done|].
  by rewrite append_cons, !contains_LF_cons, IH, orb_assoc.
Qed.

Lemma split_nonempty sep s : split sep s <> [].
Proof.
  destruct s as [|a r]; [done|]. cbn [split].
  destruct (Ascii.eqb a sep); [done|]. by destruct (split sep r).
Qed.

Lemma split_app sep a b : split sep (a +:+ String sep b) = split sep a ++ split sep b.
Proof.
  induction a as [|c a IH].
  - change ("" +:+ String sep b) with (String sep b). cbn [split].
    by rewrite Ascii.eqb_refl.
  - rewrite append_cons. cbn [split]. rewrite IH.
    destruct (Ascii.eqb c sep); [done|].
    pose proof (split_nonempty sep a). by destruct (split sep a).
Qed.

Lemma split_one s : Text.contains Text.LF s = false -> split "010" s = [s].
Proof.
  induction s as [|a s IH]; [done|]. rewrite contains_LF_cons. intros H.
  apply orb_false_iff in H as [Ha Hs]. cbn [split]. by rewrite Ha, IH.
Qed.

(** The first line begins as the text does. *)
Lemma startswith_first_line p :
  Text.contains Text.LF p = false ->
  forall s, Text.startswith p (hd "" (split "010" s)) = Text.startswith p s.
Proof.
  induction p as [|b p IH]; intros Hp s; [done|].
  rewrite contains_LF_cons in Hp. apply orb_false_iff in Hp as [Hb Hp].
  destruct s as [|a r]; [done|]. cbn [split].
  destruct (Ascii.eqb_spec a "010") as [->|Ha].
  - cbn [hd Text.startswith]. rewrite Ascii.eqb_sym. by rewrite Hb.
  - pose proof (split_nonempty "010" r) as Hn. specialize (IH Hp r).
    destruct (split "010" r) as [|first rest]; [done|].
    cbn [hd Text.startswith] in IH |- *. by rewrite IH.
Qed.

Lemma endswith_app p x : endswith p (x +:+ p) = true.
Proof.
  induction x as [|a x IH].
  - change ("" +:+ p) with p. destruct p; cbn [endswith]; by rewrite String.eqb_refl.
  - rewrite append_cons. cbn [endswith]. by rewrite IH, orb_true_r.
Qed.

Lemma substring_prefix b t : String.substring 0 (String.length b) (b +:+ t) = b.
Proof.
  induction b as [|a b IH]; [by destruct t|].
  rewrite append_cons. cbn [String.length String.substring]. by rewrite IH.
Qed.

Lemma slice_fenced body : slice_3_3 ("```" +:+ body +:+ "```") = body.
Proof.
  unfold slice_3_3.
  change ("```" +:+ body +:+ "```") with (String "`" (String "`" (String "`" (body +:+ "```")))).
  cbn [String.length]. rewrite append_length. cbn [String.length].
  replace (S (S (S (String.length body + 3))) - 6)%nat with (String.length body) by lia.
  cbn [String.substring]. apply substring_prefix.
Qed.

(** *** What [_filter_command] returns *)

(** X20. A block between fences, with any language tag after the opening
    fence, gives the lines of its body, each without the white space around
    it and the blank ones left out, joined by line feeds; the tag is dropped
    whatever it is. *)
Theorem fenced_block (lang body : string) :
  Text.contains Text.LF lang = false ->
  _filter_command ("```" +:+ lang +:+ Text.LF +:+ body +:+ Text.LF +:+ "```")
  = Some (join Text.LF
            (strip <$> List.filter (fun line => negb (String.eqb (strip line) ""))
                                   (split "010" body))).
Proof.
  intros Hl. unfold _filter_command.
  assert (E : "```" +:+ lang +:+ Text.LF +:+ body +:+ Text.LF +:+ "```"
              = "```" +:+ (lang +:+ Text.LF +:+ body +:+ Text.LF) +:+ "```").
  { by rewrite !append_assoc. }
  rewrite E, strip_fenced, <- E.
  change (String.eqb ("```" +:+ ?x) "") with false. cbn [orb].
  change (Text.contains "```" ("```" +:+ ?x)) with true. cbn [negb].
  assert (Hs : split "010" ("```" +:+ lang +:+ Text.LF +:+ body +:+ Text.LF +:+ "```")
               = ("```" +:+ lang) :: split "010" body ++ ["```"]).
  { rewrite <- (append_assoc "```" lang).
    change (Text.LF +:+ "```") with (String "010" "```").
    change (Text.LF +:+ ?x) with (String "010" x).
    rewrite !split_app, split_one by (by rewrite contains_LF_app, Hl).
    reflexivity. }
  rewrite Hs. clear E Hs.
  pose proof (split_nonempty "010" body) as Hn.
  assert (Hlen : (length (("```" +:+ lang) :: split "010" body ++ ["```"]) =? 1)%nat = false).
  { cbn [length]. rewrite length_app. cbn [length]. apply Nat.eqb_neq. lia. }
  rewrite Hlen. cbn [andb hd tl].
  change (Text.startswith "```" ("```" +:+ lang)) with true. cbv iota.
  destruct (split "010" body ++ ["```"]) as [|c cs] eqn:Ec.
  { by destruct (split "010" body). }
  rewrite <- Ec, last_last, removelast_last.
  change (String.eqb (strip "```") "```") with true. cbv iota. done.
Qed.

Lemma fenced_block_witness :
  Text.contains Text.LF "bash" = false /\
  _filter_command ("```" +:+ "bash" +:+ Text.LF +:+ ("cd /tmp" +:+ Text.LF +:+ "  ls -la ")
                   +:+ Text.LF +:+ "```")
  = Some ("cd /tmp" +:+ Text.LF +:+ "ls -la").
Proof.
  split; [reflexivity|].
  exact (fenced_block "bash" ("cd /tmp" +:+ Text.LF +:+ "  ls -la ") eq_refl).
Defined.

(** X21. A one-line block, fences at both ends and no line feed between,
    gives what is between the fences without the white space around it. *)
Theorem one_line_fence (body : string) :
  Text.contains Text.LF body = false ->
  _filter_command ("```" +:+ body +:+ "```") = Some (strip body).
Proof.
  intros Hb. unfold _filter_command. rewrite strip_fenced.
  change (String.eqb ("```" +:+ ?x) "") with false. cbn [orb].
  change (Text.contains "```" ("```" +:+ ?x)) with true. cbn [negb].
  rewrite split_one by (by rewrite !contains_LF_app, Hb).
  cbn [length hd Nat.eqb andb].
  change (Text.startswith "```" ("```" +:+ ?x)) with true. cbn [andb].
  pose proof (endswith_app "```" ("```" +:+ body)) as He. rewrite append_assoc in He.
  by rewrite He, slice_fenced.
Qed.

Lemma one_line_fence_witness :
  Text.contains Text.LF " ls -la " = false /\
  _filter_command ("```" +:+ " ls -la " +:+ "```") = Some "ls -la".
Proof.
  split; [reflexivity|]. exact (one_line_fence " ls -la " eq_refl).
Defined.

Lemma no_command_cases command :
  _filter_command command = None <->
  Text.contains "```" command = true /\ Text.startswith "```" (strip command) = false.
Proof.
  unfold _filter_command.
  rewrite (startswith_first_line "```" eq_refl (strip command)).
  split.
  - destruct (String.eqb command "" || String.eqb (strip command) ""); [done|].
    destruct (Text.contains "```" command); [|done]. cbn [negb].
    destruct (Text.startswith "```" (strip command)); [|done].
    by destruct (_ && _ && _).
  - intros [Hc Hs]. rewrite Hc, Hs, andb_false_r. cbn [negb andb].
    destruct (String.eqb_spec command "") as [->|_]; [done|].
    destruct (String.eqb_spec (strip command) "") as [He|_]; [|done].
    by apply strip_keeps_fence in Hc.
Qed.

Lemma no_command_none command :
  Text.contains "```" command = true /\ Text.startswith "```" (strip command) = false ->
  _filter_command command = None.
Proof. apply no_command_cases. Qed.

(** X22. [_filter_command] returns [None], by running off its end, exactly
    when the text holds a fence and, white space apart, does not begin with
    one. *)
Theorem no_command_iff (command : string) :
  _filter_command command = None <->
  Text.contains "```" command = true /\ Text.startswith "```" (strip command) = false.
Proof.
  apply no_command_cases.
Qed.

(** *** What [_confirm_and_execute] runs *)

(** X23. A command is run only after the answer [y] or [e], and once: for
    [y] it is the text that [_filter_command] returned, and for [e] it is
    the text that came back from the editor, which started from that text.
    Before the question the panel displayed what the console renders that
    text to, which need not be the text itself.  Any other answer runs
    nothing, and so does a text that the console does not render. *)
Theorem only_confirmed_commands_run
  (self : CLI.t) (content _input edited cmd : string) :
  In (Call cmd) (_confirm_and_execute self content _input edited).1 ->
  exists filtered displayed,
    _filter_command content = Some filtered /\ filtered <> "" /\
    render (console self) filtered = Some displayed /\
    ((_input = "y" /\ cmd = filtered /\
      _confirm_and_execute self content _input edited
      = ([ShowPanel displayed; Ask; Print "Output:" "bold green"; Call filtered],
         Return tt)) \/
     (_input = "e" /\ cmd = edited /\
      _confirm_and_execute self content _input edited
      = ([ShowPanel displayed; Ask; Edit filtered; Print "Output:" "bold green";
          Call edited], Return tt))).
Proof.
  unfold _confirm_and_execute.
  destruct (_filter_command content) as [[|a filtered]|].
  - intros [H|[]]. discriminate H.
  - destruct (render (console self) (String a filtered)) as [displayed|] eqn:Hr;
      [|intros []].
    intros H. exists (String a filtered), displayed.
    split; [done|]. split; [done|]. split; [done|].
    destruct (String.eqb_spec _input "y") as [->|_].
    { left. cbn in H. destruct H as [H|[H|[H|[H|[]]]]]; try discriminate H.
      by injection H as <-. }
    destruct (String.eqb_spec _input "e") as [->|_].
    { right. cbn in H. destruct H as [H|[H|[H|[H|[H|[]]]]]]; try discriminate H.
      by injection H as <-. }
    cbn in H. destruct H as [H|[H|[]]]; discriminate H.
  - intros [H|[]]. discriminate H.
Qed.

Lemma only_confirmed_commands_run_witness :
  In (Call "ls -la") (_confirm_and_execute Sample.quiet "```ls -la```" "y" "rm -rf x").1 /\
  _confirm_and_execute Sample.quiet "```ls -la```" "y" "rm -rf x"
  = ([ShowPanel "ls -la"; Ask; Print "Output:" "bold green"; Call "ls -la"], Return tt).
Proof.
  assert (H : In (Call "ls -la")
                 (_confirm_and_execute Sample.quiet "```ls -la```" "y" "rm -rf x").1).
  { vm_compute. right. right. right. left. reflexivity. }
  split; [exact H|].
  destruct (only_confirmed_commands_run Sample.quiet "```ls -la```" "y" "rm -rf x" "ls -la" H)
    as (filtered & displayed & Hf & _ & Hr & [(_ & <- & E)|(Hi & _)]);
    [|discriminate Hi].
  rewrite E. vm_compute in Hr. by injection Hr as <-.
Defined.

(** X24. An answer that is blank, or that holds a fence without beginning
    with one (a block after a sentence of explanation, say), gives no command:
    [No command generated] is printed, nothing is shown or asked, and nothing
    is run, whatever the user would have answered. *)
Theorem text_before_fence_gives_no_command (self : CLI.t) (content _input edited : string) :
  strip content = "" \/
  (Text.contains "```" content = true /\ Text.startswith "```" (strip content) = false) ->
  _confirm_and_execute self content _input edited
  = ([Print "No command generated" "bold red"], Return tt).
Proof.
  intros [H|H]; unfold _confirm_and_execute.
  - unfold _filter_command. by rewrite H, orb_true_r.
  - apply no_command_none in H. by rewrite H.
Qed.

Lemma text_before_fence_gives_no_command_witness :
  Text.contains "```" ("Try: ```ls```") = true /\
  Text.startswith "```" (strip "Try: ```ls```") = false /\
  _confirm_and_execute Sample.quiet "Try: ```ls```" "y" "ls"
  = ([Print "No command generated" "bold red"], Return tt).
Proof.
  split; [reflexivity|]. split; [reflexivity|].
  apply (text_before_fence_gives_no_command Sample.quiet "Try: ```ls```" "y" "ls").
  right. split; reflexivity.
Defined.

End CommandFacts.
